(** * CPU frequency driver for the ADSP-SC5xx boards

    A shallow embedding of [drivers/cpufreq/sc5xx-cpufreq.c] and the
    properties of its frequency table, its divisor arithmetic, its policy
    check and its transition sequence.

    The driver is modelled as it is written.  Values of C type [unsigned int]
    are integers of [Z] reduced modulo [2^32] where the code converts into
    them.  Calls into the kernel (clock lookup, register reads, delays,
    logging) are steps of a small monad that threads the number of register
    reads made so far and the list of effects performed; the one loop of the
    driver runs on fuel. *)

From Stdlib Require Import ZArith List String Bool Lia Sorted.
Import ListNotations.
Local Open Scope Z_scope.

(** ** Build configuration

    The three architecture switches the preprocessor conditionals test. *)

Record config : Type := {
  CONFIG_ARCH_SC58X : bool;
  CONFIG_ARCH_SC59X : bool;
  CONFIG_ARCH_SC59X_64 : bool
}.

Definition CLK : string := "sys_clkin0".

Definition CGU_DIV_UPDT_MASK : Z := 0x4000.
Definition CGU_DIV_CSEL_MASK : Z := 0x000F.

Definition CGU_DIV (cfg : config) : Z :=
  if CONFIG_ARCH_SC59X_64 cfg || CONFIG_ARCH_SC58X cfg then 0x3108D00C else -1.

Definition has_freq_defs (cfg : config) : bool :=
  CONFIG_ARCH_SC58X cfg || CONFIG_ARCH_SC59X cfg || CONFIG_ARCH_SC59X_64 cfg.

Definition MIN_MHZ (cfg : config) : Z := if has_freq_defs cfg then 800 else 0.
Definition MAX_MHZ (cfg : config) : Z := if has_freq_defs cfg then 1000 else 0.

Definition TRANSITION_LATENCY_NS : Z := 50000.

(** ** The kernel interfaces the driver is written against *)

Module Kernel.

(** Conversion to [unsigned int]. *)
Definition to_uint (x : Z) : Z := x mod 2 ^ 32.

(** Modelled from the spec: the errno constants of [include/uapi/asm-generic/errno-base.h]
    and [include/linux/err.h] are not among the sources; section 7 names the
    failure [NoSuchDevice], the kernel's [ENODEV]. *)
Definition ENODEV : Z := 19.
Definition MAX_ERRNO : Z := 4095.

(** Modelled from the spec: [IS_ERR_VALUE] of [include/linux/err.h] is not
    among the sources; section 6 has [target_index] return "the underlying
    error code or 0 on success", the error codes being the negated errno
    values [-MAX_ERRNO .. -1] of an [int]. *)
Definition IS_ERR_VALUE (x : Z) : bool := (- MAX_ERRNO <=? x) && (x <? 0).

(** Modelled from the spec: [struct clk], [clk_get] and [IS_ERR] of
    [include/linux/clk.h] and [include/linux/err.h] are not among the
    sources; section 1 describes the lookup as a service that "returns a
    handle or reports not found".  The result of [clk_get] is an error
    pointer, the null pointer, or a handle on a clock that reports a rate. *)
Inductive clk_ptr : Type :=
| ERR_PTR (errno : Z)
| NULL
| CLK_HANDLE (rate : Z).

Definition IS_ERR (p : clk_ptr) : bool :=
  match p with ERR_PTR _ => true | _ => false end.

Definition is_null (p : clk_ptr) : bool :=
  match p with NULL => true | _ => false end.

(** Modelled from the spec: [CPUFREQ_TABLE_END] and
    [struct cpufreq_frequency_table] of [include/linux/cpufreq.h] are not
    among the sources; section 3 gives an entry a frequency, an unsigned
    integer with a reserved terminator marker, and a remaining count, a
    signed integer.  The marker is the header's [~1u]. *)
Definition CPUFREQ_TABLE_END : Z := to_uint (Z.lnot 1).

Record cpufreq_frequency_table : Type := {
  frequency : Z;
  driver_data : Z
}.

(** Modelled from the spec: [struct cpufreq_policy_data] and
    [cpufreq_verify_within_limits] of [include/linux/cpufreq.h] are not
    among the sources; section 4.5 has the verifier clamp the requested
    range to the bounds it is given. *)
Record cpufreq_policy_data : Type := {
  policy_min : Z;
  policy_max : Z
}.

Definition cpufreq_verify_within_limits
    (policy : cpufreq_policy_data) (min max : Z) : cpufreq_policy_data :=
  let p := policy in
  let p := if policy_min p <? min then {| policy_min := min; policy_max := policy_max p |} else p in
  let p := if policy_max p <? min then {| policy_min := policy_min p; policy_max := min |} else p in
  let p := if max <? policy_min p then {| policy_min := max; policy_max := policy_max p |} else p in
  let p := if max <? policy_max p then {| policy_min := policy_min p; policy_max := max |} else p in
  if policy_max p <? policy_min p
  then {| policy_min := policy_max p; policy_max := policy_max p |}
  else p.

(** Modelled from the spec: [struct cpufreq_policy] of
    [include/linux/cpufreq.h] is not among the sources; section 6 has [init]
    populate the transition latency, attach the frequency table and hold the
    clock handle. *)
Record cpufreq_policy : Type := {
  transition_latency : Z;
  freq_table : list cpufreq_frequency_table;
  clk : clk_ptr
}.

Inductive loglevel : Type := KERN_ALERT | KERN_WARNING | KERN_INFO | KERN_DEFAULT.

(** An argument handed to [printk] after the format. *)
Inductive printk_arg : Type :=
| arg_str (s : string)
| arg_uint (n : Z).

End Kernel.
Import Kernel.

(** ** Effects

    What a call of the driver does to the world around it, in order. *)

Inductive event : Type :=
| ev_ioremap (addr size : Z)
| ev_readl (value : Z)
| ev_writel (value : Z)
| ev_ndelay (ns : Z)
| ev_printk (level : loglevel) (fmt : string) (args : list printk_arg)
| ev_clk_get (name : string)
| ev_clk_get_rate
| ev_clk_set_rate (rate : Z)
| ev_clk_put (clk : clk_ptr).

(** The surroundings of one call: what the mapped register returns at each
    successive read (the register is volatile, the hardware clears its update
    flag on its own), what the clock lookup answers, what the clock
    framework answers to a request for a rate, and the indeterminate contents
    of the automatic variables the driver reads before it assigns them. *)
Record env : Type := {
  hw_cgu_div : nat -> Z;
  clk_lookup : string -> clk_ptr;
  clk_set_rate_err : Z -> Z;
  uninit_uint : Z;
  uninit_clk : clk_ptr
}.

Record state : Type := {
  reads : nat;
  trace : list event
}.

Definition emit (ev : event) (s : state) : state :=
  {| reads := reads s; trace := trace s ++ [ev] |}.

Inductive outcome (A : Type) : Type :=
| Done (a : A) (s : state)
| OutOfFuel
| Undefined.
Arguments Done {A} a s.
Arguments OutOfFuel {A}.
Arguments Undefined {A}.

Definition M (A : Type) : Type := env -> state -> outcome A.

Definition ret {A} (a : A) : M A := fun _ s => Done a s.

Definition bind {A B} (m : M A) (k : A -> M B) : M B :=
  fun e s =>
    match m e s with
    | Done a s' => k a e s'
    | OutOfFuel => OutOfFuel
    | Undefined => Undefined
    end.

Declare Scope drv_scope.
Delimit Scope drv_scope with drv.
Notation "x <- m ;; k" := (bind m (fun x => k))
  (at level 61, m at next level, right associativity) : drv_scope.
Notation "m ;; k" := (bind m (fun _ => k))
  (at level 61, right associativity) : drv_scope.
Local Open Scope drv_scope.

Definition undefined {A} : M A := fun _ _ => Undefined.

Definition log (ev : event) : M unit := fun _ s => Done tt (emit ev s).

(** [ioremap] hands back the mapping of the register; the model has the one
    register, so the handle carries nothing, and the mapping is taken to
    succeed whatever the address (the driver does not test it). *)
Definition ioremap (addr size : Z) : M unit := log (ev_ioremap addr size).

Definition readl (cgu_div : unit) : M Z :=
  fun e s =>
    let v := hw_cgu_div e (reads s) in
    Done v {| reads := S (reads s); trace := trace s ++ [ev_readl v] |}.

Definition ndelay (ns : Z) : M unit := log (ev_ndelay ns).

Definition printk (level : loglevel) (fmt : string) (args : list printk_arg) : M unit :=
  log (ev_printk level fmt args).

Definition clk_get (name : string) : M clk_ptr :=
  fun e s => Done (clk_lookup e name) (emit (ev_clk_get name) s).

(** The rate of the null clock is 0; an error pointer is no clock at all,
    and asking its rate is undefined. *)
Definition clk_get_rate (clk : clk_ptr) : M Z :=
  match clk with
  | CLK_HANDLE rate => log ev_clk_get_rate ;; ret rate
  | NULL => log ev_clk_get_rate ;; ret 0
  | ERR_PTR _ => undefined
  end.

Definition clk_set_rate (clk : clk_ptr) (rate : Z) : M Z :=
  fun e s => Done (clk_set_rate_err e rate) (emit (ev_clk_set_rate rate) s).

Definition clk_put (clk : clk_ptr) : M unit := log (ev_clk_put clk).

Definition read_uninit_uint : M Z := fun e s => Done (uninit_uint e) s.
Definition read_uninit_clk : M clk_ptr := fun e s => Done (uninit_clk e) s.

(** ** The driver *)

(** [sc5xx_verify]: [min] is assigned twice and [max] never, so the test and
    the clamp read [max] as the stack left it. *)
Definition sc5xx_verify (cfg : config) (max_uninit : Z) (policy : cpufreq_policy_data)
    : Z * cpufreq_policy_data :=
  let max := max_uninit in
  let min := MIN_MHZ cfg * 1000 in
  let min := MAX_MHZ cfg * 1000 in
  if (min =? 0) && (max =? 0) then (- ENODEV, policy)
  else (0, cpufreq_verify_within_limits policy min max).

Definition sc5xx_get_cpu_freq (_ : Z) : M Z :=
  core_clk <- clk_get CLK ;;
  if IS_ERR core_clk then
    printk KERN_ALERT "could not get clk: %s[%d]\n" [arg_str CLK] ;;
    (if is_null core_clk then printk KERN_ALERT "got null!\n" [] else ret tt) ;;
    ret 0
  else
    core_clk_rate <- read_uninit_uint ;;
    printk KERN_INFO "Successfully obtained processor clock speed:%u\n" [arg_uint core_clk_rate] ;;
    core_clk_rate <- clk_get_rate core_clk ;;
    ret (to_uint core_clk_rate).

Definition sc5xx_frequency_table (cfg : config) : list cpufreq_frequency_table :=
  [ {| frequency := MAX_MHZ cfg * 1000; driver_data := 1 |};
    {| frequency := MIN_MHZ cfg * 1000; driver_data := 0 |};
    {| frequency := CPUFREQ_TABLE_END; driver_data := -1 |} ].

(** Reading [sc5xx_frequency_table[i]]; past the end of the array the
    behaviour of the C program is undefined. *)
Definition table_at (cfg : config) (i : Z) : M cpufreq_frequency_table :=
  match nth_error (sc5xx_frequency_table cfg) (Z.to_nat i) with
  | Some entry => ret entry
  | None => undefined
  end.

(** [calc_cclk_freq] ignores its divisor and asks the clock. *)
Definition calc_cclk_freq (divisor : Z) : M Z :=
  let sysclk_freq := 0 in
  sysclk_freq <- sc5xx_get_cpu_freq 0 ;;
  ret sysclk_freq.

(** [calc_cclk_divisor_for_freq] ignores its frequency. *)
Definition calc_cclk_divisor_for_freq (freq : Z) : Z :=
  let divisor := 0 in
  divisor.

(** [while(!readl(cgu_div)) ndelay(TRANSITION_LATENCY_NS);] *)
Fixpoint wait_while_zero (fuel : nat) (cgu_div : unit) : M unit :=
  match fuel with
  | O => fun _ _ => OutOfFuel
  | S fuel' =>
      v <- readl cgu_div ;;
      if v =? 0 then ndelay TRANSITION_LATENCY_NS ;; wait_while_zero fuel' cgu_div
      else ret tt
  end.

(** [set_sc5xx_cpu_freq].  The source passes an undeclared [divisor] to
    [calc_cclk_freq]; the value it has just masked out, [pll_divisor], stands
    for it (the callee ignores it).  [core_clk] is put without ever having
    been got. *)
Definition set_sc5xx_cpu_freq (fuel : nat) (cfg : config) (new_freq : Z) : M Z :=
  let err := 0 in
  cgu_div <- ioremap (CGU_DIV cfg) 4 ;;
  v <- readl cgu_div ;;
  (if Z.land v CGU_DIV_UPDT_MASK =? 0 then ret tt
   else wait_while_zero fuel cgu_div) ;;
  v <- readl cgu_div ;;
  let pll_divisor := Z.land v CGU_DIV_CSEL_MASK in
  cclk <- calc_cclk_freq pll_divisor ;;
  if cclk =? new_freq then ret 0
  else
    core_clk <- read_uninit_clk ;;
    clk_put core_clk ;;
    ret err.

Definition sc5xx_target_index (fuel : nat) (cfg : config)
    (policy : cpufreq_policy) (index : Z) : M Z :=
  let err := 0 in
  head <- table_at cfg 0 ;;
  let max_freq_nodes := to_uint (driver_data head) in
  if max_freq_nodes <? index then
    printk KERN_WARNING "Invalid frequency index provided\n" [] ;;
    ret 0
  else
    entry <- table_at cfg index ;;
    let new_freq := frequency entry in
    curr_freq <- sc5xx_get_cpu_freq 0 ;;
    if (curr_freq =? 0) && (new_freq =? 0) then ret (- ENODEV)
    else
      err <- set_sc5xx_cpu_freq fuel cfg new_freq ;;
      if IS_ERR_VALUE err then ret err else ret 0.

Definition sc5xx_init (cfg : config) (policy : cpufreq_policy) : M (Z * cpufreq_policy) :=
  let policy := {| transition_latency := TRANSITION_LATENCY_NS;
                   freq_table := freq_table policy; clk := clk policy |} in
  let policy := {| transition_latency := transition_latency policy;
                   freq_table := sc5xx_frequency_table cfg; clk := clk policy |} in
  core_clk <- clk_get CLK ;;
  let policy := {| transition_latency := transition_latency policy;
                   freq_table := freq_table policy; clk := core_clk |} in
  if IS_ERR (clk policy) then
    printk KERN_ALERT "Could not find clk[%s]\n" [arg_str CLK] ;;
    ret (- ENODEV, policy)
  else ret (0, policy).

(** [sc5xx_get_sysclkin_freq], the twin of [sc5xx_get_cpu_freq] that nothing
    calls. *)
Definition sc5xx_get_sysclkin_freq (_ : Z) : M Z :=
  core_clk <- clk_get CLK ;;
  if IS_ERR core_clk then
    printk KERN_ALERT "could not get clk: %s[%d]\n" [arg_str CLK] ;;
    (if is_null core_clk then printk KERN_ALERT "got null!\n" [] else ret tt) ;;
    ret 0
  else
    core_clk_rate <- read_uninit_uint ;;
    printk KERN_INFO "Successfully obtained processor clock speed:%u\n" [arg_uint core_clk_rate] ;;
    core_clk_rate <- clk_get_rate core_clk ;;
    ret (to_uint core_clk_rate).

(** ** The driver on the clock framework

    The other version of the file among the sources: the clock is ["arm"],
    there is no register, and a transition asks the clock framework for the
    new rate.  The table and [sc5xx_verify] are the same. *)

Module ArmClk.

Definition CLK : string := "arm".

Definition sc5xx_get_cpu_freq (_ : Z) : M Z :=
  core_clk <- clk_get CLK ;;
  if IS_ERR core_clk then
    printk KERN_INFO "could not get clk:%s\n" [arg_str CLK] ;;
    ret 0
  else
    core_clk_rate <- read_uninit_uint ;;
    printk KERN_INFO "Successfully obtained processor clock speed:%u\n" [arg_uint core_clk_rate] ;;
    core_clk_rate <- clk_get_rate core_clk ;;
    ret (to_uint core_clk_rate).

Definition set_sc5xx_cpu_freq (new_freq : Z) : M Z :=
  core_clk <- clk_get CLK ;;
  if IS_ERR core_clk then ret (- ENODEV)
  else
    err <- clk_set_rate core_clk new_freq ;;
    clk_put core_clk ;;
    ret err.

Definition sc5xx_target_index (cfg : config) (policy : cpufreq_policy) (index : Z) : M Z :=
  let err := 0 in
  head <- table_at cfg 0 ;;
  let max_freq_nodes := to_uint (driver_data head) in
  if max_freq_nodes <? index then
    printk KERN_WARNING "Invalid frequency index provided\n" [] ;;
    ret 0
  else
    entry <- table_at cfg index ;;
    let new_freq := frequency entry in
    curr_freq <- sc5xx_get_cpu_freq 0 ;;
    if (curr_freq =? 0) && (new_freq =? 0) then ret (- ENODEV)
    else
      err <- set_sc5xx_cpu_freq new_freq ;;
      if IS_ERR_VALUE err then ret err else ret 0.

Definition sc5xx_init (cfg : config) (policy : cpufreq_policy) : M (Z * cpufreq_policy) :=
  let policy := {| transition_latency := TRANSITION_LATENCY_NS;
                   freq_table := freq_table policy; clk := clk policy |} in
  let policy := {| transition_latency := transition_latency policy;
                   freq_table := sc5xx_frequency_table cfg; clk := clk policy |} in
  ret (0, policy).

End ArmClk.

(** ** Reading outcomes and traces *)

(** A call that has come back has come back with a value in [P], and no
    call runs into undefined behaviour; a call still in its loop is not held
    to anything. *)
Definition returns_only {A} (P : A -> Prop) (o : outcome A) : Prop :=
  match o with
  | Done a _ => P a
  | OutOfFuel => True
  | Undefined => False
  end.

Definition is_write (ev : event) : bool :=
  match ev with ev_writel _ => true | _ => false end.

Definition is_reg_access (ev : event) : bool :=
  match ev with
  | ev_ioremap _ _ | ev_readl _ | ev_writel _ => true
  | _ => false
  end.

Definition is_delay (ev : event) : bool :=
  match ev with ev_ndelay _ => true | _ => false end.

Definition no_write (ev : event) : bool := negb (is_write ev).
Definition no_reg_access (ev : event) : bool := negb (is_reg_access ev).

Definition reg_writes (tr : list event) : nat := List.length (filter is_write tr).
Definition delays (tr : list event) : nat := List.length (filter is_delay tr).

Definition is_clk_put (ev : event) : bool :=
  match ev with ev_clk_put _ => true | _ => false end.

(** In the surroundings [e], every event a computation adds to the trace
    satisfies [Q]. *)
Definition appends (e : env) (Q : event -> bool) {A} (m : M A) : Prop :=
  forall s a s', m e s = Done a s' ->
    exists evs, trace s' = trace s ++ evs /\ forallb Q evs = true.

(** The largest index [sc5xx_target_index] accepts: the head entry's
    [driver_data], read into an [unsigned int]. *)
Definition max_valid_index (cfg : config) : Z :=
  match nth_error (sc5xx_frequency_table cfg) 0 with
  | Some head => to_uint (driver_data head)
  | None => 0
  end.

(** The wait loop entered at read [base] of the register leaves after [k]
    delays: [k] reads of zero, then a read that is not zero. *)
Definition wait_polls (hw : nat -> Z) (base k : nat) : Prop :=
  (forall j, (j < k)%nat -> hw (base + j)%nat = 0) /\ hw (base + k)%nat <> 0.

(** The wait of a transition started in state [s] is over after [k] delays:
    at once when the first read shows no update in progress, and otherwise
    when the loop leaves. *)
Definition wait_finishes (e : env) (s : state) (k : nat) : Prop :=
  if Z.land (hw_cgu_div e (reads s)) CGU_DIV_UPDT_MASK =? 0 then k = 0%nat
  else wait_polls (hw_cgu_div e) (S (reads s)) k.

(** From read [reads s] on, the register shows the update flag at every read. *)
Definition update_stuck (e : env) (s : state) : Prop :=
  forall n, Z.land (hw_cgu_div e (reads s + n)%nat) CGU_DIV_UPDT_MASK <> 0.

(** The frequency [calc_cclk_freq] computes from the divisor field is [f],
    whatever the field holds and whenever it is asked. *)
Definition cclk_is (e : env) (f : Z) : Prop :=
  forall divisor s, exists s', calc_cclk_freq divisor e s = Done f s'.

(** ** Concrete boards *)

Definition sc58x : config :=
  {| CONFIG_ARCH_SC58X := true; CONFIG_ARCH_SC59X := false; CONFIG_ARCH_SC59X_64 := false |}.

Definition no_arch : config :=
  {| CONFIG_ARCH_SC58X := false; CONFIG_ARCH_SC59X := false; CONFIG_ARCH_SC59X_64 := false |}.

Definition s0 : state := {| reads := 0; trace := [] |}.

Definition board (hw : nat -> Z) (c : clk_ptr) : env :=
  {| hw_cgu_div := hw; clk_lookup := fun _ => c; clk_set_rate_err := fun _ => 0;
     uninit_uint := 0xDEADBEEF; uninit_clk := NULL |}.

(** The register shows the update flag and nothing else, at every read. *)
Definition hw_flag_stuck : nat -> Z := fun _ => 0x4000.

(** The register shows the update flag alone at the first read and reads as
    zero from then on: every field is clear once the hardware drops the flag. *)
Definition hw_flag_then_zero : nat -> Z := fun n => if Nat.eqb n 0 then 0x4000 else 0.

(** An idle register with the divisor field at 1. *)
Definition hw_idle : nat -> Z := fun _ => 0x0001.

Definition a_policy : cpufreq_policy :=
  {| transition_latency := 0; freq_table := []; clk := NULL |}.

(** ** Statements of the design that the driver does not meet, as worded *)

(** Bounded wait: some configured number of polls [max_polls] exists such
    that, whenever the update flag never clears, the transition returns a
    failure after exactly [max_polls] delays. *)
Definition bounded_wait_claim : Prop :=
  exists max_polls : nat,
    forall cfg e new_freq, update_stuck e s0 ->
      exists fuel r s',
        set_sc5xx_cpu_freq fuel cfg new_freq e s0 = Done r s' /\
        IS_ERR_VALUE r = true /\ delays (trace s') = max_polls.

(** Transition no-op: whenever the computed frequency is the target, the
    transition returns success and has written nothing. *)
Definition transition_noop_claim (cfg : config) (e : env) (new_freq : Z) : Prop :=
  cclk_is e new_freq ->
  exists fuel s',
    set_sc5xx_cpu_freq fuel cfg new_freq e s0 = Done 0 s' /\
    reg_writes (trace s') = 0%nat.

(** ** Module load and unload

    [cpufreq_register_driver] and [cpufreq_unregister_driver] belong to the
    cpufreq core, outside these sources: the call on [&sc5xx_driver] is the
    computation handed in. *)

(** [for(i=0; i<=sc5xx_frequency_table[0].driver_data; i++) printk(...)] *)
Fixpoint print_table_from (fuel : nat) (cfg : config) (i : Z) : M unit :=
  match fuel with
  | O => fun _ _ => OutOfFuel
  | S fuel' =>
      head <- table_at cfg 0 ;;
      if i <=? driver_data head then
        entry <- table_at cfg i ;;
        printk KERN_ALERT "DEBUG:Freq table[%d]:freq:[%u]Hz\n"
          [arg_uint i; arg_uint (frequency entry)] ;;
        print_table_from fuel' cfg (i + 1)
      else ret tt
  end.

Definition load_cpufreq (fuel : nat) (cfg : config) (cpufreq_register_driver : M Z) : M Z :=
  print_table_from fuel cfg 0 ;;
  err <- cpufreq_register_driver ;;
  if IS_ERR_VALUE err then ret err
  else
    printk KERN_DEFAULT "Loaded cpufreq driver for sc5xx!\n" [] ;;
    ret 0.

Definition unload_cpufreq (cpufreq_unregister_driver : M unit) : M unit :=
  cpufreq_unregister_driver ;;
  printk KERN_DEFAULT "Unloaded cpufreq driver for sc5xx\n" [].

(** ** Reading traces, continued *)

Definition is_clk_get (ev : event) : bool :=
  match ev with ev_clk_get _ => true | _ => false end.

Definition is_clk_get_rate (ev : event) : bool :=
  match ev with ev_clk_get_rate => true | _ => false end.

Definition is_clk_set_rate (ev : event) : bool :=
  match ev with ev_clk_set_rate _ => true | _ => false end.

(** What can change the core clock: a write to the register, or a rate
    asked of the clock framework. *)
Definition changes_clock (ev : event) : bool := is_write ev || is_clk_set_rate ev.

(** The value a frequency query on the clock [name] comes back with. *)
Definition query_value (name : string) (e : env) : Z :=
  match clk_lookup e name with
  | CLK_HANDLE rate => to_uint rate
  | _ => 0
  end.

(** The frequency of the table at [index], 0 past its end. *)
Definition table_frequency (cfg : config) (index : Z) : Z :=
  match nth_error (sc5xx_frequency_table cfg) (Z.to_nat index) with
  | Some entry => frequency entry
  | None => 0
  end.

(** The line [load_cpufreq] logs for entry [i]. *)
Definition debug_line (cfg : config) (i : Z) : event :=
  ev_printk KERN_ALERT "DEBUG:Freq table[%d]:freq:[%u]Hz\n"
    [arg_uint i; arg_uint (table_frequency cfg i)].

(** A register that reads [first], then zero [k] times, then [last] for good. *)
Definition hw_pending (first : Z) (k : nat) (last : Z) : nat -> Z :=
  fun n => if Nat.eqb n 0 then first else if Nat.leb n k then 0 else last.

(** * Properties *)

(** ** The monad *)

Section Appends.
Variable e : env.
Variable Q : event -> bool.

Lemma appends_ret {A} (a : A) : appends e Q (ret a).
Proof.
  intros s a' s' H. injection H as _ <-.
  exists []. now rewrite app_nil_r.
Qed.

Lemma appends_bind {A B} (m : M A) (k : A -> M B) :
  appends e Q m ->
  (forall a, (exists s s', m e s = Done a s') -> appends e Q (k a)) ->
  appends e Q (bind m k).
Proof.
  intros Hm Hk s b s' H. unfold bind in H.
  destruct (m e s) as [a s1| |] eqn:E; try discriminate.
  destruct (Hm _ _ _ E) as (evs1 & T1 & Q1).
  destruct (Hk a (ex_intro _ s (ex_intro _ s1 E)) _ _ _ H) as (evs2 & T2 & Q2).
  exists (evs1 ++ evs2). split.
  - now rewrite T2, T1, app_assoc.
  - now rewrite forallb_app, Q1, Q2.
Qed.

Lemma appends_log ev : Q ev = true -> appends e Q (log ev).
Proof.
  intros HQ s a s' H. injection H as _ <-.
  exists [ev]. simpl. now rewrite HQ.
Qed.

Lemma appends_readl cgu_div : (forall v, Q (ev_readl v) = true) -> appends e Q (readl cgu_div).
Proof.
  intros HQ s a s' H. injection H as _ <-.
  eexists [_]. simpl. now rewrite HQ.
Qed.

Lemma appends_silent {A} (m : M A) :
  (forall s a s', m e s = Done a s' -> s' = s) -> appends e Q m.
Proof.
  intros Hm s a s' H. rewrite (Hm _ _ _ H).
  exists []. now rewrite app_nil_r.
Qed.
End Appends.

Lemma forallb_filter_none {A} (p : A -> bool) (l : list A) :
  forallb (fun x => negb (p x)) l = true -> filter p l = [].
Proof.
  induction l as [|x l IH]; simpl; intros H; [reflexivity|].
  apply andb_prop in H as [Hx Hl].
  apply negb_true_iff in Hx. rewrite Hx. auto.
Qed.

Lemma reg_writes_app tr evs :
  forallb no_write evs = true -> reg_writes (tr ++ evs) = reg_writes tr.
Proof.
  intros H. unfold reg_writes. rewrite filter_app.
  rewrite (forallb_filter_none is_write evs H). now rewrite app_nil_r.
Qed.

(** ** The frequency table *)

Lemma CPUFREQ_TABLE_END_value : CPUFREQ_TABLE_END = 4294967294.
Proof. reflexivity. Qed.

Lemma max_valid_index_value cfg : max_valid_index cfg = 1.
Proof. reflexivity. Qed.

(** C5.  The table as built: entry 0 holds the maximum frequency, the entry
    at [max_valid_index] the minimum, the entry after it is the terminator
    ([CPUFREQ_TABLE_END], [driver_data] -1, a frequency no real entry has);
    the [driver_data] values fall strictly from the head on (those of the
    real entries also when read as [unsigned int]), and the head's is the
    number of entries less two. *)
Theorem table_invariant (cfg : config) :
  let t := sc5xx_frequency_table cfg in
  option_map frequency (nth_error t 0) = Some (MAX_MHZ cfg * 1000) /\
  option_map frequency (nth_error t (Z.to_nat (max_valid_index cfg))) = Some (MIN_MHZ cfg * 1000) /\
  nth_error t (Z.to_nat (max_valid_index cfg + 1)) =
    Some {| frequency := CPUFREQ_TABLE_END; driver_data := -1 |} /\
  nth_error t (Z.to_nat (max_valid_index cfg + 2)) = None /\
  MAX_MHZ cfg * 1000 <> CPUFREQ_TABLE_END /\ MIN_MHZ cfg * 1000 <> CPUFREQ_TABLE_END /\
  StronglySorted (fun a b => driver_data b < driver_data a) t /\
  StronglySorted (fun a b => to_uint (driver_data b) < to_uint (driver_data a))
    (firstn (Z.to_nat (max_valid_index cfg + 1)) t) /\
  option_map driver_data (nth_error t 0) = Some (Z.of_nat (List.length t) - 2) /\
  max_valid_index cfg = Z.of_nat (List.length t) - 2.
Proof.
  cbv zeta. rewrite max_valid_index_value.
  repeat split; try reflexivity.
  - unfold MAX_MHZ. destruct (has_freq_defs cfg); discriminate.
  - unfold MIN_MHZ. destruct (has_freq_defs cfg); discriminate.
  - unfold sc5xx_frequency_table.
    repeat (constructor; simpl; try lia).
  - unfold sc5xx_frequency_table. simpl.
    repeat (constructor; simpl; try reflexivity).
Qed.

(** ** The divisor arithmetic *)

Lemma calc_cclk_divisor_for_freq_const freq : calc_cclk_divisor_for_freq freq = 0.
Proof. reflexivity. Qed.

Lemma calc_cclk_freq_ignores_divisor d d' : calc_cclk_freq d = calc_cclk_freq d'.
Proof. reflexivity. Qed.

(** C2.  With the reference clock at 25 MHz and the divisor 1,
    [calc_cclk_freq] answers the clock's own rate, and
    [calc_cclk_divisor_for_freq] of that answer is 0, not the divisor 1 that
    went in; the same frequency comes back for the divisor 2. *)
Theorem divisor_round_trip_at_1 :
  let e := board hw_idle (CLK_HANDLE 25000000) in
  exists s',
    calc_cclk_freq 1 e s0 = Done 25000000 s' /\
    calc_cclk_freq 2 e s0 = Done 25000000 s' /\
    calc_cclk_divisor_for_freq 25000000 = 0 /\
    calc_cclk_divisor_for_freq 25000000 <> 1.
Proof.
  cbv zeta. eexists. repeat split. discriminate.
Qed.

(** ** The policy check *)

Lemma sc5xx_verify_code cfg max_uninit policy :
  fst (sc5xx_verify cfg max_uninit policy) = - ENODEV <->
  MAX_MHZ cfg * 1000 = 0 /\ max_uninit = 0.
Proof.
  unfold sc5xx_verify.
  destruct (MAX_MHZ cfg * 1000 =? 0) eqn:E1; destruct (max_uninit =? 0) eqn:E2; simpl;
    rewrite ?Z.eqb_eq, ?Z.eqb_neq in *; split; intros H;
    try (destruct H; contradiction); try discriminate; auto.
Qed.

(** C3.  On a build with no supported architecture ([MIN_MHZ] and [MAX_MHZ]
    both 0), with the unassigned [max] holding 1, [sc5xx_verify] returns 0
    and clamps the policy to [1, 1]; on an SC58x build, with [max] holding
    0, the request for the table's own range comes back as [0, 0]. *)
Theorem sc5xx_verify_unassigned_max :
  MIN_MHZ no_arch = 0 /\ MAX_MHZ no_arch = 0 /\
  sc5xx_verify no_arch 1 {| policy_min := 800000; policy_max := 1000000 |}
    = (0, {| policy_min := 1; policy_max := 1 |}) /\
  sc5xx_verify sc58x 0 {| policy_min := 800000; policy_max := 1000000 |}
    = (0, {| policy_min := 0; policy_max := 0 |}).
Proof. repeat split. Qed.

(** ** The frequency query *)

(** What [sc5xx_get_cpu_freq] returns, read off the clock lookup. *)
Lemma sc5xx_get_cpu_freq_run (u : Z) (e : env) (s : state) :
  exists v s',
    sc5xx_get_cpu_freq u e s = Done v s' /\
    reads s' = reads s /\
    (exists evs, trace s' = trace s ++ evs /\
       forallb (fun ev => no_reg_access ev && negb (is_clk_put ev)) evs = true) /\
    match clk_lookup e CLK with
    | ERR_PTR _ => v = 0
    | NULL => v = 0
    | CLK_HANDLE rate => v = to_uint rate
    end.
Proof.
  unfold sc5xx_get_cpu_freq, bind, clk_get, printk, log, ret, read_uninit_uint.
  destruct (clk_lookup e CLK) as [errno | | rate]; simpl;
    do 2 eexists; (split; [reflexivity|]); simpl; (split; [reflexivity|]);
    (split; [|reflexivity]);
    rewrite <- ?app_assoc; simpl; eexists; (split; [reflexivity|]); reflexivity.
Qed.

(** C9.  Whatever the clock lookup answers, [sc5xx_get_cpu_freq] returns:
    0 when the lookup failed, and otherwise the rate the clock reports,
    converted to [unsigned int] (the rate itself when it fits).  The value
    does not depend on the unassigned [core_clk_rate] it logs. *)
Theorem sc5xx_get_cpu_freq_result (u : Z) (e : env) (s : state) :
  exists v s',
    sc5xx_get_cpu_freq u e s = Done v s' /\
    match clk_lookup e CLK with
    | ERR_PTR _ => v = 0
    | NULL => v = 0
    | CLK_HANDLE rate => v = to_uint rate /\ (0 <= rate < 2 ^ 32 -> v = rate)
    end /\
    forall garbage, exists s'',
      sc5xx_get_cpu_freq u
        {| hw_cgu_div := hw_cgu_div e; clk_lookup := clk_lookup e;
           clk_set_rate_err := clk_set_rate_err e;
           uninit_uint := garbage; uninit_clk := uninit_clk e |} s = Done v s''.
Proof.
  destruct (sc5xx_get_cpu_freq_run u e s) as (v & s' & R & _ & _ & V).
  exists v, s'. split; [exact R|]. split.
  - destruct (clk_lookup e CLK); auto. split; [exact V|].
    intros Hr. subst v. unfold to_uint. now apply Z.mod_small.
  - intros garbage.
    destruct (sc5xx_get_cpu_freq_run u
      {| hw_cgu_div := hw_cgu_div e; clk_lookup := clk_lookup e;
         clk_set_rate_err := clk_set_rate_err e;
         uninit_uint := garbage; uninit_clk := uninit_clk e |} s)
      as (v' & s'' & R' & _ & _ & V').
    exists s''. rewrite R'. f_equal. simpl in V'.
    destruct (clk_lookup e CLK); congruence.
Qed.

(** ** The wait loop *)

Lemma delays_snoc_readl tr v : delays (tr ++ [ev_readl v]) = delays tr.
Proof. unfold delays. rewrite filter_app. simpl. now rewrite app_nil_r. Qed.

Lemma delays_snoc_ndelay tr ns : delays (tr ++ [ev_ndelay ns]) = S (delays tr).
Proof. unfold delays. rewrite filter_app, length_app. simpl. lia. Qed.

(** Enough fuel sees the loop out: it leaves after [k] delays and [k + 1]
    reads. *)
Lemma wait_while_zero_leaves (k : nat) :
  forall fuel cgu_div e s,
    (k < fuel)%nat -> wait_polls (hw_cgu_div e) (reads s) k ->
    exists s',
      wait_while_zero fuel cgu_div e s = Done tt s' /\
      reads s' = (reads s + k + 1)%nat /\
      delays (trace s') = (delays (trace s) + k)%nat.
Proof.
  induction k as [|k IH]; intros fuel cgu_div e s Hfuel [Hzero Hnz].
  - destruct fuel as [|fuel]; [lia|].
    rewrite Nat.add_0_r in Hnz. apply Z.eqb_neq in Hnz.
    simpl. unfold bind, readl. rewrite Hnz.
    eexists. split; [reflexivity|]. simpl. split; [lia|].
    rewrite delays_snoc_readl. lia.
  - destruct fuel as [|fuel]; [lia|].
    pose proof (Hzero 0%nat ltac:(lia)) as H0. rewrite Nat.add_0_r in H0.
    simpl. unfold bind at 1. unfold readl. rewrite H0. simpl.
    unfold bind at 1. unfold ndelay, log.
    set (s1 := emit _ _).
    destruct (IH fuel cgu_div e s1) as (s' & R & Hr & Hd).
    + lia.
    + split.
      * intros j Hj. simpl. specialize (Hzero (S j) ltac:(lia)).
        now rewrite Nat.add_succ_r in Hzero.
      * simpl. now rewrite Nat.add_succ_r in Hnz.
    + exists s'. split; [exact R|]. subst s1. simpl in Hr, Hd.
      rewrite delays_snoc_ndelay, delays_snoc_readl in Hd. split; lia.
Qed.

(** A register that reads as zero for good keeps the loop going, whatever
    the fuel. *)
Lemma wait_while_zero_spins (fuel : nat) :
  forall cgu_div e s,
    (forall j, hw_cgu_div e (reads s + j)%nat = 0) ->
    wait_while_zero fuel cgu_div e s = OutOfFuel.
Proof.
  induction fuel as [|fuel IH]; intros cgu_div e s Hz; [reflexivity|].
  pose proof (Hz 0%nat) as H0. rewrite Nat.add_0_r in H0.
  simpl. unfold bind at 1. unfold readl. rewrite H0. simpl.
  unfold bind at 1. unfold ndelay, log. apply IH.
  intros j. simpl. specialize (Hz (S j)). now rewrite Nat.add_succ_r in Hz.
Qed.

(** When the loop has left, it was because a read was not zero. *)
Lemma wait_while_zero_left (fuel : nat) :
  forall cgu_div e s u s',
    wait_while_zero fuel cgu_div e s = Done u s' ->
    exists k, (k < fuel)%nat /\ wait_polls (hw_cgu_div e) (reads s) k.
Proof.
  induction fuel as [|fuel IH]; intros cgu_div e s u s' H; [discriminate|].
  simpl in H. unfold bind at 1 in H. unfold readl in H.
  destruct (hw_cgu_div e (reads s) =? 0) eqn:E.
  - unfold bind at 1 in H. unfold ndelay, log in H.
    apply IH in H as (k & Hk & Hz & Hnz). simpl in Hz, Hnz.
    apply Z.eqb_eq in E.
    exists (S k). split; [lia|]. split.
    + intros [|j] Hj; [now rewrite Nat.add_0_r|].
      rewrite Nat.add_succ_r. apply Hz. lia.
    + now rewrite Nat.add_succ_r.
  - apply Z.eqb_neq in E. exists 0%nat. split; [lia|]. split.
    + intros j Hj. lia.
    + now rewrite Nat.add_0_r.
Qed.

Lemma wait_while_zero_safe (fuel : nat) :
  forall cgu_div e s, returns_only (fun _ => True) (wait_while_zero fuel cgu_div e s).
Proof.
  induction fuel as [|fuel IH]; intros cgu_div e s; [exact I|].
  simpl. unfold bind at 1. unfold readl.
  destruct (hw_cgu_div e (reads s) =? 0).
  - unfold bind at 1. unfold ndelay, log. apply IH.
  - exact I.
Qed.

Lemma wait_while_zero_appends (e : env) (Q : event -> bool) (fuel : nat) :
  (forall v, Q (ev_readl v) = true) -> Q (ev_ndelay TRANSITION_LATENCY_NS) = true ->
  forall cgu_div, appends e Q (wait_while_zero fuel cgu_div).
Proof.
  intros Hr Hd. induction fuel as [|fuel IH]; intros cgu_div.
  - intros s a s' H. discriminate.
  - simpl. apply appends_bind; [now apply appends_readl|].
    intros v _. destruct (v =? 0).
    + apply appends_bind; [now apply appends_log|]. intros _ _. apply IH.
    + apply appends_ret.
Qed.

(** ** The transition *)

Lemma calc_cclk_freq_run (divisor : Z) (e : env) (s : state) :
  exists v s',
    calc_cclk_freq divisor e s = Done v s' /\ reads s' = reads s /\
    forall u s1, exists s1', sc5xx_get_cpu_freq u e s1 = Done v s1'.
Proof.
  destruct (sc5xx_get_cpu_freq_run 0 e s) as (v & s' & R & Hr & _ & V).
  exists v, s'. unfold calc_cclk_freq, bind. rewrite R. repeat split; auto.
  intros u s1.
  destruct (sc5xx_get_cpu_freq_run u e s1) as (v1 & s1' & R1 & _ & _ & V1).
  exists s1'. rewrite R1. f_equal.
  destruct (clk_lookup e CLK); congruence.
Qed.

Lemma sc5xx_get_cpu_freq_appends (e : env) (Q : event -> bool) (u : Z) :
  (forall ev, is_reg_access ev = false -> is_clk_put ev = false -> Q ev = true) ->
  appends e Q (sc5xx_get_cpu_freq u).
Proof.
  intros HQ s a s' H.
  destruct (sc5xx_get_cpu_freq_run u e s) as (v & s1 & R & _ & (evs & T & F) & _).
  rewrite R in H. injection H as _ <-.
  exists evs. split; [exact T|].
  apply forallb_forall. intros ev Hin.
  rewrite forallb_forall in F. specialize (F ev Hin).
  apply andb_prop in F as [F1 F2].
  apply HQ; now apply negb_true_iff.
Qed.

(** The events of a transition, but for the last step, satisfy any [Q] that
    admits the mapping, the reads, the delays and what the frequency query
    does; the last step is a [clk_put] unless the computed frequency is the
    target. *)
Lemma set_sc5xx_cpu_freq_appends (e : env) (Q : event -> bool)
    (fuel : nat) (cfg : config) (new_freq : Z) :
  (forall ev, is_write ev = false -> is_clk_put ev = false -> Q ev = true) ->
  (cclk_is e new_freq \/ forall c, Q (ev_clk_put c) = true) ->
  appends e Q (set_sc5xx_cpu_freq fuel cfg new_freq).
Proof.
  intros HQ Hput. unfold set_sc5xx_cpu_freq.
  apply appends_bind; [now apply appends_log, HQ|]. intros cgu_div _.
  apply appends_bind; [apply appends_readl; intros; now apply HQ|]. intros v _.
  apply appends_bind.
  { destruct (Z.land v CGU_DIV_UPDT_MASK =? 0);
      [apply appends_ret | apply wait_while_zero_appends; intros; now apply HQ]. }
  intros _ _. apply appends_bind; [apply appends_readl; intros; now apply HQ|]. intros v' _.
  apply appends_bind.
  { unfold calc_cclk_freq.
    apply appends_bind; [|intros; apply appends_ret].
    apply sc5xx_get_cpu_freq_appends. intros ev H1 H2. apply HQ; [|exact H2].
    now destruct ev. }
  intros cclk (s & s' & R).
  destruct (cclk =? new_freq) eqn:E; [apply appends_ret|].
  destruct Hput as [Hc | Hput].
  - destruct (Hc (Z.land v' CGU_DIV_CSEL_MASK) s) as (s'' & R').
    rewrite R in R'. injection R' as -> _. now rewrite Z.eqb_refl in E.
  - apply appends_bind.
    { apply appends_silent. intros s1 a s1' H. now injection H as _ <-. }
    intros core_clk _. apply appends_bind; [now apply appends_log|].
    intros _ _. apply appends_ret.
Qed.

(** What follows the wait: one more read of the register, the frequency
    query, and 0 either way. *)
Lemma set_sc5xx_cpu_freq_cases (fuel : nat) (cfg : config) (new_freq : Z) (e : env) (s : state) :
  let s1 := {| reads := S (reads s);
               trace := (trace s ++ [ev_ioremap (CGU_DIV cfg) 4])
                          ++ [ev_readl (hw_cgu_div e (reads s))] |} in
  (Z.land (hw_cgu_div e (reads s)) CGU_DIV_UPDT_MASK <> 0 /\
   wait_while_zero fuel tt e s1 = OutOfFuel /\
   set_sc5xx_cpu_freq fuel cfg new_freq e s = OutOfFuel)
  \/
  (exists s2 s',
     (if Z.land (hw_cgu_div e (reads s)) CGU_DIV_UPDT_MASK =? 0 then s2 = s1
      else wait_while_zero fuel tt e s1 = Done tt s2) /\
     set_sc5xx_cpu_freq fuel cfg new_freq e s = Done 0 s').
Proof.
  cbv zeta.
  set (s1 := {| reads := S (reads s); trace := _ |}).
  pose (tail := (v <- readl tt ;;
                 cclk <- calc_cclk_freq (Z.land v CGU_DIV_CSEL_MASK) ;;
                 (if cclk =? new_freq then ret 0
                  else core_clk <- read_uninit_clk ;; clk_put core_clk ;; ret 0)) : M Z).
  assert (Eq : set_sc5xx_cpu_freq fuel cfg new_freq e s =
               bind (if Z.land (hw_cgu_div e (reads s)) CGU_DIV_UPDT_MASK =? 0
                     then ret tt else wait_while_zero fuel tt)
                    (fun _ => tail) e s1) by reflexivity.
  assert (Tail : forall s2, exists s', tail e s2 = Done 0 s').
  { intros s2. unfold tail. unfold bind at 1. unfold readl.
    set (s3 := {| reads := S (reads s2); trace := _ |}).
    unfold bind at 1.
    destruct (calc_cclk_freq_run (Z.land (hw_cgu_div e (reads s2)) CGU_DIV_CSEL_MASK) e s3)
      as (v & s4 & R & _ & _).
    rewrite R. destruct (v =? new_freq); eexists; reflexivity. }
  rewrite Eq. clearbody tail. unfold bind.
  destruct (Z.land (hw_cgu_div e (reads s)) CGU_DIV_UPDT_MASK =? 0) eqn:E.
  - right. unfold ret. destruct (Tail s1) as (s' & R).
    exists s1, s'. split; [reflexivity | exact R].
  - apply Z.eqb_neq in E.
    pose proof (wait_while_zero_safe fuel tt e s1) as Safe.
    destruct (wait_while_zero fuel tt e s1) as [[] s2| |] eqn:W.
    + right. destruct (Tail s2) as (s' & R).
      exists s2, s'. split; [reflexivity | exact R].
    + left. auto.
    + destruct Safe.
Qed.

(** [set_sc5xx_cpu_freq] returns 0 or is still waiting; it has no other
    result. *)
Lemma set_sc5xx_cpu_freq_only_0 (fuel : nat) (cfg : config) (new_freq : Z) (e : env) (s : state) :
  returns_only (fun r => r = 0) (set_sc5xx_cpu_freq fuel cfg new_freq e s).
Proof.
  destruct (set_sc5xx_cpu_freq_cases fuel cfg new_freq e s) as [(_ & _ & R) | (s2 & s' & _ & R)];
    rewrite R; simpl; auto.
Qed.

(** It returns as soon as the wait is over. *)
Lemma set_sc5xx_cpu_freq_returns (fuel : nat) (cfg : config) (new_freq : Z) (e : env) (s : state) (k : nat) :
  wait_finishes e s k -> (k < fuel)%nat ->
  exists s', set_sc5xx_cpu_freq fuel cfg new_freq e s = Done 0 s'.
Proof.
  intros Hw Hk. unfold wait_finishes in Hw.
  destruct (set_sc5xx_cpu_freq_cases fuel cfg new_freq e s) as [(Hset & W & _) | (s2 & s' & _ & R)].
  - apply Z.eqb_neq in Hset. rewrite Hset in Hw.
    match type of W with wait_while_zero _ _ _ ?s1 = _ =>
      destruct (wait_while_zero_leaves k fuel tt e s1 Hk Hw) as (s' & R & _)
    end.
    congruence.
  - now exists s'.
Qed.

(** And only then. *)
Lemma set_sc5xx_cpu_freq_returned (fuel : nat) (cfg : config) (new_freq : Z) (e : env) (s : state) r s' :
  set_sc5xx_cpu_freq fuel cfg new_freq e s = Done r s' ->
  exists k, wait_finishes e s k.
Proof.
  intros H. unfold wait_finishes.
  destruct (set_sc5xx_cpu_freq_cases fuel cfg new_freq e s) as [(_ & _ & R) | (s2 & s'' & W & _)];
    [congruence|].
  destruct (Z.land (hw_cgu_div e (reads s)) CGU_DIV_UPDT_MASK =? 0).
  - now exists 0%nat.
  - apply wait_while_zero_left in W as (k & _ & Hp). now exists k.
Qed.

Lemma update_stuck_wait_finishes e s : update_stuck e s -> wait_finishes e s 0.
Proof.
  intros H. unfold wait_finishes.
  pose proof (H 0%nat) as H0. rewrite Nat.add_0_r in H0.
  apply Z.eqb_neq in H0. rewrite H0.
  split; [intros j Hj; lia|].
  intros Hz. apply (H 1%nat).
  replace (reads s + 1)%nat with (S (reads s) + 0)%nat by lia.
  now rewrite Hz.
Qed.

Lemma forallb_weaken {A} (p q : A -> bool) (l : list A) :
  (forall x, p x = true -> q x = true) -> forallb p l = true -> forallb q l = true.
Proof.
  intros Hpq. rewrite !forallb_forall. auto.
Qed.

(** A transition started with the flag up and fed zeros from then on. *)
Lemma flag_then_zero_spins (fuel : nat) :
  set_sc5xx_cpu_freq fuel sc58x 1000000
    (board hw_flag_then_zero (CLK_HANDLE 1000000)) s0 = OutOfFuel.
Proof.
  destruct (set_sc5xx_cpu_freq_cases fuel sc58x 1000000
              (board hw_flag_then_zero (CLK_HANDLE 1000000)) s0)
    as [(_ & _ & R) | (s2 & s' & W & _)]; [exact R|].
  simpl in W. apply wait_while_zero_left in W as (k & _ & _ & Hnz).
  now destruct Hnz.
Qed.

(** A transition with the flag up at every read: three reads, no delay. *)
Example flag_stuck_run :
  set_sc5xx_cpu_freq 1 sc58x 800000 (board hw_flag_stuck (CLK_HANDLE 1000000)) s0 =
  Done 0 {| reads := 3;
            trace := [ ev_ioremap 0x3108D00C 4; ev_readl 0x4000; ev_readl 0x4000;
                       ev_readl 0x4000; ev_clk_get CLK;
                       ev_printk KERN_INFO "Successfully obtained processor clock speed:%u\n"
                         [arg_uint 0xDEADBEEF];
                       ev_clk_get_rate; ev_clk_put NULL ] |}.
Proof. reflexivity. Qed.

(** C1, refuted as worded.  The bounded wait is not what the driver does: a
    transition that returns returns 0, never a failure, flag stuck or not. *)
Lemma bounded_wait_refuted : ~ bounded_wait_claim.
Proof.
  intros (max_polls & H).
  destruct (H sc58x (board hw_flag_stuck (CLK_HANDLE 1000000)) 800000)
    as (fuel & r & s' & R & Herr & _).
  - intros n. discriminate.
  - pose proof (set_sc5xx_cpu_freq_only_0 fuel sc58x 800000
                  (board hw_flag_stuck (CLK_HANDLE 1000000)) s0) as H0.
    rewrite R in H0. simpl in H0. subst r. discriminate Herr.
Qed.

(** C1, as the code has it.  With the update flag up at every read, a
    transition that returns has returned 0, which is no failure, and has
    written nothing to the register: the driver has no timeout result and
    no cap on its polls. *)
Theorem stuck_flag_never_times_out
    (fuel : nat) (cfg : config) (new_freq : Z) (e : env) (s : state) (r : Z) (s' : state) :
  update_stuck e s ->
  set_sc5xx_cpu_freq fuel cfg new_freq e s = Done r s' ->
  r = 0 /\ IS_ERR_VALUE r = false /\ reg_writes (trace s') = reg_writes (trace s).
Proof.
  intros _ R.
  pose proof (set_sc5xx_cpu_freq_only_0 fuel cfg new_freq e s) as H0.
  rewrite R in H0. simpl in H0. subst r.
  split; [reflexivity|]. split; [reflexivity|].
  assert (A : appends e no_write (set_sc5xx_cpu_freq fuel cfg new_freq)).
  { apply set_sc5xx_cpu_freq_appends.
    - intros ev Hw _. unfold no_write. now rewrite Hw.
    - right. reflexivity. }
  destruct (A _ _ _ R) as (evs & T & F).
  rewrite T. now apply reg_writes_app.
Qed.

Lemma stuck_flag_never_times_out_witness :
  exists s',
    set_sc5xx_cpu_freq 1 sc58x 800000 (board hw_flag_stuck (CLK_HANDLE 1000000)) s0 = Done 0 s' /\
    (0 = 0 /\ IS_ERR_VALUE 0 = false /\ reg_writes (trace s') = reg_writes (trace s0)).
Proof.
  eexists. split; [vm_compute; reflexivity|].
  apply (stuck_flag_never_times_out 1 sc58x 800000
           (board hw_flag_stuck (CLK_HANDLE 1000000)) s0 0 _).
  - intros n. discriminate.
  - vm_compute. reflexivity.
Defined.

(** C7.  The no-op transition on a register whose update has completed:
    the flag is up at the first read and the register reads as zero from
    then on (the flag has cleared), the clock is at the target, and the call
    is still in [while(!readl(cgu_div))] whatever the fuel: it never returns
    the success the no-op is to give. *)
Theorem transition_noop_spins_after_update :
  let e := board hw_flag_then_zero (CLK_HANDLE 1000000) in
  cclk_is e 1000000 /\
  Z.land (hw_cgu_div e 0) CGU_DIV_UPDT_MASK <> 0 /\
  (forall n, Z.land (hw_cgu_div e (S n)) CGU_DIV_UPDT_MASK = 0) /\
  (forall fuel, set_sc5xx_cpu_freq fuel sc58x 1000000 e s0 = OutOfFuel) /\
  ~ transition_noop_claim sc58x e 1000000.
Proof.
  cbv zeta.
  assert (Hc : cclk_is (board hw_flag_then_zero (CLK_HANDLE 1000000)) 1000000).
  { intros divisor s. eexists. reflexivity. }
  split; [exact Hc|]. split; [discriminate|]. split; [reflexivity|].
  split; [exact flag_then_zero_spins|].
  intros H. destruct (H Hc) as (fuel & s' & R & _).
  rewrite flag_then_zero_spins in R. discriminate.
Qed.

(** Past its wait loop, a transition to the frequency the clock already has
    returns 0 by the short cut: it adds no register write to the trace, and
    no [clk_put]. *)
Lemma transition_noop
    (fuel : nat) (cfg : config) (new_freq : Z) (e : env) (s : state) (k : nat) :
  wait_finishes e s k -> (k < fuel)%nat -> cclk_is e new_freq ->
  exists s',
    set_sc5xx_cpu_freq fuel cfg new_freq e s = Done 0 s' /\
    reg_writes (trace s') = reg_writes (trace s) /\
    exists evs, trace s' = trace s ++ evs /\
      forallb (fun ev => no_write ev && negb (is_clk_put ev)) evs = true.
Proof.
  intros Hw Hk Hc.
  destruct (set_sc5xx_cpu_freq_returns fuel cfg new_freq e s k Hw Hk) as (s' & R).
  exists s'. split; [exact R|].
  assert (A : appends e (fun ev => no_write ev && negb (is_clk_put ev))
                (set_sc5xx_cpu_freq fuel cfg new_freq)).
  { apply set_sc5xx_cpu_freq_appends.
    - intros ev H1 H2. unfold no_write. now rewrite H1, H2.
    - now left. }
  destruct (A _ _ _ R) as (evs & T & F).
  split.
  - rewrite T. apply reg_writes_app.
    apply forallb_weaken with (2 := F). intros ev H.
    now apply andb_prop in H as [H _].
  - now exists evs.
Qed.

(** ** The transition request *)

Lemma sc5xx_target_index_in_range
    (fuel : nat) (cfg : config) (policy : cpufreq_policy) (index : Z) (e : env) (s : state) :
  index <= max_valid_index cfg ->
  exists entry v s1,
    nth_error (sc5xx_frequency_table cfg) (Z.to_nat index) = Some entry /\
    sc5xx_get_cpu_freq 0 e s = Done v s1 /\ reads s1 = reads s /\
    sc5xx_target_index fuel cfg policy index e s =
      if (v =? 0) && (frequency entry =? 0) then Done (- ENODEV) s1
      else match set_sc5xx_cpu_freq fuel cfg (frequency entry) e s1 with
           | Done err s' => Done (if IS_ERR_VALUE err then err else 0) s'
           | OutOfFuel => OutOfFuel
           | Undefined => Undefined
           end.
Proof.
  rewrite max_valid_index_value. intros Hi.
  destruct (sc5xx_get_cpu_freq_run 0 e s) as (v & s1 & R & Hr & _ & _).
  assert (Hn : Z.to_nat index = 0%nat \/ Z.to_nat index = 1%nat) by lia.
  assert (Hlt : (to_uint 1 <? index) = false) by (change (to_uint 1) with 1; lia).
  destruct Hn as [Hn | Hn].
  - eexists _, v, s1. split; [rewrite Hn; reflexivity|]. split; [exact R|]. split; [exact Hr|].
    unfold sc5xx_target_index, table_at. rewrite Hn. simpl nth_error.
    unfold bind at 1. unfold ret at 1. cbn [driver_data]. rewrite Hlt.
    unfold bind at 1. unfold ret at 1. unfold bind at 1. rewrite R.
    destruct ((v =? 0) && _); [reflexivity|].
    unfold bind. destruct (set_sc5xx_cpu_freq _ _ _ _ _) as [err s'| |]; [|reflexivity..].
    now destruct (IS_ERR_VALUE err).
  - eexists _, v, s1. split; [rewrite Hn; reflexivity|]. split; [exact R|]. split; [exact Hr|].
    unfold sc5xx_target_index, table_at. rewrite Hn. simpl nth_error.
    unfold bind at 1. unfold ret at 1. cbn [driver_data]. rewrite Hlt.
    unfold bind at 1. unfold ret at 1. unfold bind at 1. rewrite R.
    destruct ((v =? 0) && _); [reflexivity|].
    unfold bind. destruct (set_sc5xx_cpu_freq _ _ _ _ _) as [err s'| |]; [|reflexivity..].
    now destruct (IS_ERR_VALUE err).
Qed.

(** Above [max_valid_index] the request is logged and dropped. *)
Lemma out_of_range_index_aux
    (fuel : nat) (cfg : config) (policy : cpufreq_policy) (index : Z) (e : env) (s : state) :
  max_valid_index cfg < index ->
  exists s', sc5xx_target_index fuel cfg policy index e s = Done 0 s'.
Proof.
  rewrite max_valid_index_value. intros Hi.
  unfold sc5xx_target_index, table_at. simpl nth_error.
  unfold bind at 1. unfold ret at 1. cbn [driver_data].
  assert (Hlt : (to_uint 1 <? index) = true) by (change (to_uint 1) with 1; lia).
  rewrite Hlt. eexists. reflexivity.
Qed.

(** C4.  For an index above [max_valid_index], [sc5xx_target_index] returns
    0 and all it has done is log a warning: the register has not been
    mapped, read or written, and no read has been counted. *)
Theorem out_of_range_index
    (fuel : nat) (cfg : config) (policy : cpufreq_policy) (index : Z) (e : env) (s : state) :
  max_valid_index cfg < index ->
  let warning := ev_printk KERN_WARNING "Invalid frequency index provided\n" [] in
  sc5xx_target_index fuel cfg policy index e s = Done 0 (emit warning s) /\
  reads (emit warning s) = reads s /\
  trace (emit warning s) = trace s ++ [warning] /\
  is_reg_access warning = false.
Proof.
  rewrite max_valid_index_value. intros Hi. cbv zeta.
  repeat split.
  unfold sc5xx_target_index, table_at. simpl nth_error.
  unfold bind at 1. unfold ret at 1. cbn [driver_data].
  assert (Hlt : (to_uint 1 <? index) = true) by (change (to_uint 1) with 1; lia).
  rewrite Hlt. reflexivity.
Qed.

Lemma out_of_range_index_witness :
  let warning := ev_printk KERN_WARNING "Invalid frequency index provided\n" [] in
  sc5xx_target_index 1 sc58x a_policy 2 (board hw_idle (CLK_HANDLE 1000000)) s0
    = Done 0 (emit warning s0) /\
  reads (emit warning s0) = reads s0 /\
  trace (emit warning s0) = trace s0 ++ [warning] /\
  is_reg_access warning = false.
Proof.
  apply (out_of_range_index 1 sc58x a_policy 2 (board hw_idle (CLK_HANDLE 1000000)) s0).
  reflexivity.
Defined.

(** C6.  For a valid index, when the frequency query returns 0 and the
    table's frequency at the index is 0, [sc5xx_target_index] returns
    -ENODEV in the very state the query left: no transition was attempted,
    and the register has been neither mapped nor read nor written. *)
Theorem no_operating_range
    (fuel : nat) (cfg : config) (policy : cpufreq_policy) (index : Z)
    (e : env) (s s1 : state) (entry : cpufreq_frequency_table) :
  0 <= index <= max_valid_index cfg ->
  sc5xx_get_cpu_freq 0 e s = Done 0 s1 ->
  nth_error (sc5xx_frequency_table cfg) (Z.to_nat index) = Some entry ->
  frequency entry = 0 ->
  sc5xx_target_index fuel cfg policy index e s = Done (- ENODEV) s1 /\
  reads s1 = reads s /\
  exists evs, trace s1 = trace s ++ evs /\ forallb no_reg_access evs = true.
Proof.
  intros [_ Hi] Hq Hn Hf.
  destruct (sc5xx_target_index_in_range fuel cfg policy index e s Hi)
    as (entry' & v & s1' & Hn' & R & Hr & T).
  rewrite Hn in Hn'. injection Hn' as <-.
  rewrite Hq in R. injection R as <- <-.
  rewrite Hf in T. simpl in T. split; [exact T|]. split; [exact Hr|].
  destruct (sc5xx_get_cpu_freq_run 0 e s) as (v & s2 & R & _ & (evs & Tr & F) & _).
  rewrite Hq in R. injection R as <- <-.
  exists evs. split; [exact Tr|].
  apply forallb_weaken with (2 := F). intros ev H.
  now apply andb_prop in H as [H _].
Qed.

Lemma no_operating_range_witness :
  exists s1,
    sc5xx_target_index 1 no_arch a_policy 0 (board hw_idle (ERR_PTR (-2))) s0
      = Done (- ENODEV) s1 /\
    reads s1 = reads s0 /\
    exists evs, trace s1 = trace s0 ++ evs /\ forallb no_reg_access evs = true.
Proof.
  eexists.
  apply (no_operating_range 1 no_arch a_policy 0 (board hw_idle (ERR_PTR (-2))) s0 _
           {| frequency := 0; driver_data := 1 |}).
  - rewrite max_valid_index_value. lia.
  - reflexivity.
  - reflexivity.
  - reflexivity.
Defined.

(** C10.  [sc5xx_target_index] has two results, 0 and -ENODEV, and none
    other: it runs into no undefined behaviour, and the transition it calls,
    [set_sc5xx_cpu_freq], has the one result 0, which [IS_ERR_VALUE] does
    not take for an error.  It does return whenever the wait for a pending
    update is over within the fuel. *)
Theorem target_index_result_codes
    (fuel : nat) (cfg : config) (policy : cpufreq_policy) (index : Z) (e : env) (s : state) :
  returns_only (fun r => r = 0 \/ r = - ENODEV)
    (sc5xx_target_index fuel cfg policy index e s) /\
  (forall new_freq s1,
     returns_only (fun err => err = 0 /\ IS_ERR_VALUE err = false)
       (set_sc5xx_cpu_freq fuel cfg new_freq e s1)) /\
  (forall k, wait_finishes e s k -> (k < fuel)%nat ->
     exists r s', sc5xx_target_index fuel cfg policy index e s = Done r s').
Proof.
  assert (Set0 : forall new_freq s1,
    returns_only (fun err => err = 0 /\ IS_ERR_VALUE err = false)
      (set_sc5xx_cpu_freq fuel cfg new_freq e s1)).
  { intros new_freq s1.
    pose proof (set_sc5xx_cpu_freq_only_0 fuel cfg new_freq e s1) as H.
    destruct (set_sc5xx_cpu_freq fuel cfg new_freq e s1); simpl in *; auto.
    subst. auto. }
  destruct (Z.ltb_spec (max_valid_index cfg) index) as [Hout | Hin].
  - destruct (out_of_range_index_aux fuel cfg policy index e s Hout) as (s' & R).
    rewrite R. repeat split; simpl; auto.
    intros k _ _. now exists 0, s'.
  - destruct (sc5xx_target_index_in_range fuel cfg policy index e s Hin)
      as (entry & v & s1 & Hn & R & Hr & T).
    rewrite T. split; [|split; [exact Set0|]].
    + destruct ((v =? 0) && _); simpl; auto.
      specialize (Set0 (frequency entry) s1).
      destruct (set_sc5xx_cpu_freq fuel cfg (frequency entry) e s1); simpl in *; auto.
      destruct Set0 as [-> _]. simpl. auto.
    + intros k Hw Hk.
      destruct ((v =? 0) && _); [now eexists _, _|].
      assert (Hw1 : wait_finishes e s1 k) by (unfold wait_finishes in *; now rewrite Hr).
      destruct (set_sc5xx_cpu_freq_returns fuel cfg (frequency entry) e s1 k Hw1 Hk) as (s' & R').
      rewrite R'. now eexists _, _.
Qed.

(** ** Runs on a concrete board *)

(** A request for index 0 while an update is pending: the flag is up at the
    first read, the register reads as zero twice, then shows the divisor 2.
    The loop delays twice; nothing is written. *)
Example pending_update_run :
  sc5xx_target_index 3 sc58x a_policy 0
    (board (fun n => if Nat.ltb n 1 then 0x4001 else if Nat.ltb n 3 then 0 else 2)
           (CLK_HANDLE 800000)) s0 =
  Done 0 {| reads := 5;
            trace := [ ev_clk_get CLK;
                       ev_printk KERN_INFO "Successfully obtained processor clock speed:%u\n"
                         [arg_uint 0xDEADBEEF];
                       ev_clk_get_rate;
                       ev_ioremap 0x3108D00C 4;
                       ev_readl 0x4001;
                       ev_readl 0; ev_ndelay 50000;
                       ev_readl 0; ev_ndelay 50000;
                       ev_readl 2;
                       ev_readl 2;
                       ev_clk_get CLK;
                       ev_printk KERN_INFO "Successfully obtained processor clock speed:%u\n"
                         [arg_uint 0xDEADBEEF];
                       ev_clk_get_rate;
                       ev_clk_put NULL ] |}.
Proof. reflexivity. Qed.

(** The same request with one unit of fuel less is still in the loop. *)
Example pending_update_short_of_fuel :
  sc5xx_target_index 2 sc58x a_policy 0
    (board (fun n => if Nat.ltb n 1 then 0x4001 else if Nat.ltb n 3 then 0 else 2)
           (CLK_HANDLE 800000)) s0 = OutOfFuel.
Proof. reflexivity. Qed.

(** A failed lookup: the query logs and returns 0. *)
Example failed_lookup_run :
  sc5xx_get_cpu_freq 0 (board hw_idle (ERR_PTR (-2))) s0 =
  Done 0 {| reads := 0;
            trace := [ ev_clk_get CLK;
                       ev_printk KERN_ALERT "could not get clk: %s[%d]\n" [arg_str CLK] ] |}.
Proof. reflexivity. Qed.

(** On the clock framework the failure of [clk_set_rate] does reach the
    caller: the result codes of [sc5xx_target_index] are 0 and -ENODEV only
    where the transition goes through the register. *)
Example arm_clk_error_reaches_caller :
  ArmClk.sc5xx_target_index sc58x a_policy 0
    {| hw_cgu_div := hw_idle; clk_lookup := fun _ => CLK_HANDLE 800000;
       clk_set_rate_err := fun _ => -22; uninit_uint := 0; uninit_clk := NULL |} s0 =
  Done (-22) {| reads := 0;
                trace := [ ev_clk_get ArmClk.CLK;
                           ev_printk KERN_INFO "Successfully obtained processor clock speed:%u\n"
                             [arg_uint 0];
                           ev_clk_get_rate;
                           ev_clk_get ArmClk.CLK;
                           ev_clk_set_rate 1000000;
                           ev_clk_put (CLK_HANDLE 800000) ] |}.
Proof. reflexivity. Qed.

(** * Further properties of the driver *)

(** ** Initialisation *)

(** X1.  [sc5xx_init] fails with -ENODEV exactly when the clock lookup
    fails, and has no other failure.  Either way the policy it leaves has the
    transition latency of 50000 ns, the driver's table, and whatever the
    lookup answered as its clock (the error pointer on failure); the register
    is not touched. *)
Theorem sc5xx_init_result (cfg : config) (policy : cpufreq_policy) (e : env) (s : state) :
  exists r p s',
    sc5xx_init cfg policy e s = Done (r, p) s' /\
    (r = 0 \/ r = - ENODEV) /\
    (r = - ENODEV <-> IS_ERR (clk_lookup e CLK) = true) /\
    transition_latency p = 50000 /\
    freq_table p = sc5xx_frequency_table cfg /\
    clk p = clk_lookup e CLK /\
    reads s' = reads s /\
    exists evs, trace s' = trace s ++ evs /\ forallb no_reg_access evs = true.
Proof.
  unfold sc5xx_init, bind, clk_get, printk, log, ret, emit. cbn [clk reads trace].
  destruct (IS_ERR (clk_lookup e CLK)) eqn:E.
  - do 3 eexists. split; [reflexivity|]. cbn [transition_latency freq_table clk reads trace].
    repeat split; auto.
    rewrite <- app_assoc. eexists. split; reflexivity.
  - do 3 eexists. split; [reflexivity|]. cbn [transition_latency freq_table clk reads trace].
    repeat split; auto; try discriminate.
    eexists. split; reflexivity.
Qed.

(** ** The policy check, continued *)

(** X2.  On a build that defines the frequencies, [sc5xx_verify] returns 0
    whatever the unassigned [max] holds, and the bound it clamps from below
    is the maximum frequency, above the table's minimum.  When [max] holds at
    least that much, the verified range lies within [MAX_MHZ * 1000, max],
    so the table's minimum frequency is never admitted; when [max] holds
    less, the verified range is the single value [max]. *)
Theorem sc5xx_verify_lower_bound_is_max
    (cfg : config) (max_uninit : Z) (policy : cpufreq_policy_data) :
  has_freq_defs cfg = true ->
  fst (sc5xx_verify cfg max_uninit policy) = 0 /\
  MIN_MHZ cfg * 1000 < MAX_MHZ cfg * 1000 /\
  (MAX_MHZ cfg * 1000 <= max_uninit ->
     MAX_MHZ cfg * 1000 <= policy_min (snd (sc5xx_verify cfg max_uninit policy)) /\
     policy_min (snd (sc5xx_verify cfg max_uninit policy))
       <= policy_max (snd (sc5xx_verify cfg max_uninit policy)) /\
     policy_max (snd (sc5xx_verify cfg max_uninit policy)) <= max_uninit) /\
  (max_uninit < MAX_MHZ cfg * 1000 ->
     snd (sc5xx_verify cfg max_uninit policy)
       = {| policy_min := max_uninit; policy_max := max_uninit |}).
Proof.
  intros Hdefs. unfold sc5xx_verify, MAX_MHZ, MIN_MHZ. rewrite Hdefs.
  change (1000 * 1000 =? 0) with false. cbn [andb fst snd].
  split; [reflexivity|]. split; [lia|].
  unfold cpufreq_verify_within_limits. destruct policy as [pmin pmax].
  cbn [policy_min policy_max].
  split; intros Hmax;
    repeat match goal with
           | |- context [if ?a <? ?b then _ else _] =>
               destruct (Z.ltb_spec a b); cbn [policy_min policy_max] in *
           end; try lia; try reflexivity; f_equal; lia.
Qed.

Lemma sc5xx_verify_lower_bound_is_max_witness :
  fst (sc5xx_verify sc58x 4294967295 {| policy_min := 800000; policy_max := 1000000 |}) = 0 /\
  MIN_MHZ sc58x * 1000 < MAX_MHZ sc58x * 1000 /\
  (MAX_MHZ sc58x * 1000 <= 4294967295 ->
     MAX_MHZ sc58x * 1000
       <= policy_min (snd (sc5xx_verify sc58x 4294967295 {| policy_min := 800000; policy_max := 1000000 |})) /\
     policy_min (snd (sc5xx_verify sc58x 4294967295 {| policy_min := 800000; policy_max := 1000000 |}))
       <= policy_max (snd (sc5xx_verify sc58x 4294967295 {| policy_min := 800000; policy_max := 1000000 |})) /\
     policy_max (snd (sc5xx_verify sc58x 4294967295 {| policy_min := 800000; policy_max := 1000000 |}))
       <= 4294967295) /\
  (4294967295 < MAX_MHZ sc58x * 1000 ->
     snd (sc5xx_verify sc58x 4294967295 {| policy_min := 800000; policy_max := 1000000 |})
       = {| policy_min := 4294967295; policy_max := 4294967295 |}).
Proof.
  apply (sc5xx_verify_lower_bound_is_max sc58x 4294967295
           {| policy_min := 800000; policy_max := 1000000 |}).
  reflexivity.
Defined.

(** ** The frequency query, continued *)

(** The trace of one query, event by event. *)
Lemma sc5xx_get_cpu_freq_trace (u : Z) (e : env) (s : state) :
  exists s' evs,
    sc5xx_get_cpu_freq u e s = Done (query_value CLK e) s' /\
    reads s' = reads s /\ trace s' = trace s ++ evs /\
    evs = ev_clk_get CLK ::
          (if IS_ERR (clk_lookup e CLK)
           then [ev_printk KERN_ALERT "could not get clk: %s[%d]\n" [arg_str CLK]]
           else [ev_printk KERN_INFO "Successfully obtained processor clock speed:%u\n"
                   [arg_uint (uninit_uint e)];
                 ev_clk_get_rate]).
Proof.
  unfold sc5xx_get_cpu_freq, query_value, bind, clk_get, printk, log, ret, read_uninit_uint.
  destruct (clk_lookup e CLK) as [errno | | rate]; simpl;
    do 2 eexists; (split; [reflexivity|]); simpl; (split; [reflexivity|]);
    (split; [|reflexivity]); rewrite <- ?app_assoc; reflexivity.
Qed.

(** X3.  Every call of [sc5xx_get_cpu_freq] takes one reference on the clock
    and gives none back: one [clk_get], no [clk_put].  It asks the rate once
    when the lookup did not fail and not at all when it did, and it leaves
    the register alone. *)
Theorem sc5xx_get_cpu_freq_keeps_reference (u : Z) (e : env) (s : state) :
  exists v s' evs,
    sc5xx_get_cpu_freq u e s = Done v s' /\
    reads s' = reads s /\ trace s' = trace s ++ evs /\
    filter is_clk_get evs = [ev_clk_get CLK] /\
    filter is_clk_put evs = [] /\
    filter is_clk_get_rate evs =
      (if IS_ERR (clk_lookup e CLK) then [] else [ev_clk_get_rate]) /\
    filter is_reg_access evs = [].
Proof.
  destruct (sc5xx_get_cpu_freq_trace u e s) as (s' & evs & R & Hr & T & ->).
  do 3 eexists. split; [exact R|]. split; [exact Hr|]. split; [exact T|].
  destruct (IS_ERR (clk_lookup e CLK)); repeat split.
Qed.

(** ** The transition, continued *)

Lemma delays_snoc_other tr ev : is_delay ev = false -> delays (tr ++ [ev]) = delays tr.
Proof.
  intros H. unfold delays. rewrite filter_app. simpl. rewrite H. now rewrite app_nil_r.
Qed.

Lemma appends_weaken (e : env) (P Q : event -> bool) {A} (m : M A) :
  (forall ev, P ev = true -> Q ev = true) -> appends e P m -> appends e Q m.
Proof.
  intros HPQ Hm s a s' R. destruct (Hm s a s' R) as (evs & T & F).
  exists evs. split; [exact T|]. now apply forallb_weaken with (p := P).
Qed.

(** A transition that gets past its wait, step by step: the mapping, the
    reads and delays of the wait, one more read, the frequency query, and a
    [clk_put] of the unassigned pointer unless the frequencies agree. *)
Lemma set_sc5xx_cpu_freq_anatomy
    (fuel : nat) (cfg : config) (new_freq : Z) (e : env) (s : state) (k : nat) :
  wait_finishes e s k -> (k < fuel)%nat ->
  exists s2 s' evs,
    set_sc5xx_cpu_freq fuel cfg new_freq e s = Done 0 s' /\
    reads s2 = (if Z.land (hw_cgu_div e (reads s)) CGU_DIV_UPDT_MASK =? 0
                then S (reads s) else (reads s + k + 2)%nat) /\
    delays (trace s2) = (delays (trace s) + k)%nat /\
    trace s2 = trace s ++ evs /\
    forallb (fun ev => is_reg_access ev || is_delay ev) evs = true /\
    reads s' = S (reads s2) /\
    trace s' = trace s2 ++
      ev_readl (hw_cgu_div e (reads s2)) :: ev_clk_get CLK ::
      (if IS_ERR (clk_lookup e CLK)
       then [ev_printk KERN_ALERT "could not get clk: %s[%d]\n" [arg_str CLK]]
       else [ev_printk KERN_INFO "Successfully obtained processor clock speed:%u\n"
               [arg_uint (uninit_uint e)];
             ev_clk_get_rate]) ++
      (if query_value CLK e =? new_freq then [] else [ev_clk_put (uninit_clk e)]).
Proof.
  intros Hw Hk. unfold wait_finishes in Hw.
  set (s1 := {| reads := S (reads s);
                trace := (trace s ++ [ev_ioremap (CGU_DIV cfg) 4])
                           ++ [ev_readl (hw_cgu_div e (reads s))] |}).
  pose (tail := (v <- readl tt ;;
                 cclk <- calc_cclk_freq (Z.land v CGU_DIV_CSEL_MASK) ;;
                 (if cclk =? new_freq then ret 0
                  else core_clk <- read_uninit_clk ;; clk_put core_clk ;; ret 0)) : M Z).
  assert (Eq : set_sc5xx_cpu_freq fuel cfg new_freq e s =
               bind (if Z.land (hw_cgu_div e (reads s)) CGU_DIV_UPDT_MASK =? 0
                     then ret tt else wait_while_zero fuel tt)
                    (fun _ => tail) e s1) by reflexivity.
  assert (Tail : forall s2, exists s',
    tail e s2 = Done 0 s' /\ reads s' = S (reads s2) /\
    trace s' = trace s2 ++
      ev_readl (hw_cgu_div e (reads s2)) :: ev_clk_get CLK ::
      (if IS_ERR (clk_lookup e CLK)
       then [ev_printk KERN_ALERT "could not get clk: %s[%d]\n" [arg_str CLK]]
       else [ev_printk KERN_INFO "Successfully obtained processor clock speed:%u\n"
               [arg_uint (uninit_uint e)];
             ev_clk_get_rate]) ++
      (if query_value CLK e =? new_freq then [] else [ev_clk_put (uninit_clk e)])).
  { intros s2. unfold tail. unfold bind at 1. unfold readl.
    set (s3 := {| reads := S (reads s2); trace := _ |}).
    unfold bind at 1. unfold calc_cclk_freq. unfold bind at 1.
    destruct (sc5xx_get_cpu_freq_trace 0 e s3) as (s4 & qevs & R & Hr & T & Hq).
    rewrite R. unfold ret at 1.
    destruct (query_value CLK e =? new_freq).
    - exists s4. split; [reflexivity|]. split; [exact Hr|].
      rewrite T, Hq. subst s3. cbn [trace]. rewrite <- !app_assoc, app_nil_r. reflexivity.
    - eexists. split; [reflexivity|]. cbn [reads trace emit]. split; [exact Hr|].
      rewrite T, Hq. subst s3. cbn [trace]. rewrite <- !app_assoc. reflexivity. }
  rewrite Eq. clearbody tail. unfold bind.
  destruct (Z.land (hw_cgu_div e (reads s)) CGU_DIV_UPDT_MASK =? 0) eqn:E.
  - subst k. unfold ret. destruct (Tail s1) as (s' & R & Hr & T).
    exists s1, s', [ev_ioremap (CGU_DIV cfg) 4; ev_readl (hw_cgu_div e (reads s))].
    split; [exact R|]. split; [reflexivity|]. split.
    { subst s1. cbn [trace]. rewrite !delays_snoc_other by reflexivity. lia. }
    split; [subst s1; cbn [trace]; now rewrite <- app_assoc|].
    split; [reflexivity|]. split; [exact Hr | exact T].
  - destruct (wait_while_zero_leaves k fuel tt e s1 Hk Hw) as (s2 & W & Hr2 & Hd2).
    rewrite W. destruct (Tail s2) as (s' & R & Hr & T).
    destruct (wait_while_zero_appends e (fun ev => is_reg_access ev || is_delay ev) fuel
                (fun _ => eq_refl) eq_refl tt s1 tt s2 W) as (wevs & Tw & Fw).
    exists s2, s', ([ev_ioremap (CGU_DIV cfg) 4; ev_readl (hw_cgu_div e (reads s))] ++ wevs).
    split; [exact R|]. split; [subst s1; cbn [reads] in Hr2; lia|]. split.
    { rewrite Hd2. subst s1. cbn [trace]. rewrite !delays_snoc_other by reflexivity. lia. }
    split; [rewrite Tw; subst s1; cbn [trace]; now rewrite <- !app_assoc|].
    split; [rewrite forallb_app, Fw; reflexivity|]. split; [exact Hr | exact T].
Qed.

Lemma filter_none_of {A} (p q : A -> bool) (l : list A) :
  (forall x, q x = true -> p x = false) -> forallb q l = true -> filter p l = [].
Proof.
  intros H F. apply forallb_filter_none. apply forallb_weaken with (2 := F).
  intros x Hq. now rewrite (H x Hq).
Qed.

(** X5.  What a transition costs: once the wait is over after [k] polls of
    zero, [set_sc5xx_cpu_freq] has slept [k] times and has read the register
    twice when no update was pending, and [k + 3] times when one was. *)
Theorem transition_cost
    (fuel : nat) (cfg : config) (new_freq : Z) (e : env) (s : state) (k : nat) :
  wait_finishes e s k -> (k < fuel)%nat ->
  exists s',
    set_sc5xx_cpu_freq fuel cfg new_freq e s = Done 0 s' /\
    delays (trace s') = (delays (trace s) + k)%nat /\
    reads s' = (if Z.land (hw_cgu_div e (reads s)) CGU_DIV_UPDT_MASK =? 0
                then (reads s + 2)%nat else (reads s + k + 3)%nat).
Proof.
  intros Hw Hk.
  destruct (set_sc5xx_cpu_freq_anatomy fuel cfg new_freq e s k Hw Hk)
    as (s2 & s' & evs & R & Hr2 & Hd2 & _ & _ & Hr & T).
  exists s'. split; [exact R|]. split.
  - rewrite T. unfold delays in *. rewrite filter_app, length_app, Hd2.
    destruct (IS_ERR (clk_lookup e CLK)); destruct (query_value CLK e =? new_freq);
      simpl; lia.
  - rewrite Hr, Hr2.
    destruct (Z.land (hw_cgu_div e (reads s)) CGU_DIV_UPDT_MASK =? 0); lia.
Qed.

Lemma transition_cost_witness :
  exists s',
    set_sc5xx_cpu_freq 3 sc58x 1000000 (board (hw_pending 0x4001 2 2) (CLK_HANDLE 800000)) s0
      = Done 0 s' /\
    delays (trace s') = (delays (trace s0) + 2)%nat /\
    reads s' = (if Z.land (hw_cgu_div (board (hw_pending 0x4001 2 2) (CLK_HANDLE 800000)) (reads s0))
                     CGU_DIV_UPDT_MASK =? 0
                then (reads s0 + 2)%nat else (reads s0 + 2 + 3)%nat).
Proof.
  apply (transition_cost 3 sc58x 1000000 (board (hw_pending 0x4001 2 2) (CLK_HANDLE 800000)) s0 2).
  - split.
    + intros [|[|j]] Hj; [reflexivity | reflexivity | lia].
    + discriminate.
  - lia.
Defined.

(** X6.  When a transition returns, it has called [clk_put] once if the
    clock's frequency differs from the target and not at all if it is the
    target; the pointer it puts is the one it never assigned, not a clock it
    got. *)
Theorem transition_puts_unassigned_clock
    (fuel : nat) (cfg : config) (new_freq : Z) (e : env) (s : state) (k : nat) :
  wait_finishes e s k -> (k < fuel)%nat ->
  exists s' evs,
    set_sc5xx_cpu_freq fuel cfg new_freq e s = Done 0 s' /\
    trace s' = trace s ++ evs /\
    filter is_clk_put evs =
      (if query_value CLK e =? new_freq then [] else [ev_clk_put (uninit_clk e)]) /\
    filter is_clk_get evs = [ev_clk_get CLK].
Proof.
  intros Hw Hk.
  destruct (set_sc5xx_cpu_freq_anatomy fuel cfg new_freq e s k Hw Hk)
    as (s2 & s' & evs & R & _ & _ & T2 & F & _ & T).
  eexists s', _. split; [exact R|]. split.
  { rewrite T, T2, <- app_assoc. reflexivity. }
  rewrite !filter_app.
  rewrite (filter_none_of is_clk_put _ evs) with (2 := F)
    by (intros []; simpl; congruence).
  rewrite (filter_none_of is_clk_get _ evs) with (2 := F)
    by (intros []; simpl; congruence).
  destruct (IS_ERR (clk_lookup e CLK)); destruct (query_value CLK e =? new_freq);
    split; reflexivity.
Qed.

Lemma transition_puts_unassigned_clock_witness :
  exists s' evs,
    set_sc5xx_cpu_freq 1 sc58x 800000 (board hw_idle (CLK_HANDLE 1000000)) s0 = Done 0 s' /\
    trace s' = trace s0 ++ evs /\
    filter is_clk_put evs =
      (if query_value CLK (board hw_idle (CLK_HANDLE 1000000)) =? 800000
       then [] else [ev_clk_put (uninit_clk (board hw_idle (CLK_HANDLE 1000000)))]) /\
    filter is_clk_get evs = [ev_clk_get CLK].
Proof.
  apply (transition_puts_unassigned_clock 1 sc58x 800000
           (board hw_idle (CLK_HANDLE 1000000)) s0 0).
  - reflexivity.
  - lia.
Defined.

(** The first read that is not zero, if there is one at all. *)
Lemma first_nonzero_read (hw : nat -> Z) (j : nat) :
  forall base, hw (base + j)%nat <> 0 -> exists k, (k <= j)%nat /\ wait_polls hw base k.
Proof.
  induction j as [|j IH]; intros base Hnz.
  - exists 0%nat. split; [lia|]. split; [intros i Hi; lia | exact Hnz].
  - destruct (Z.eq_dec (hw (base + 0)%nat) 0) as [Hz | Hz].
    + destruct (IH (S base)) as (k & Hk & Hzero & Hlast).
      { now rewrite Nat.add_succ_r in Hnz. }
      exists (S k). split; [lia|]. split.
      * intros [|i] Hi; [exact Hz|].
        rewrite Nat.add_succ_r. apply Hzero. lia.
      * now rewrite Nat.add_succ_r.
    + exists 0%nat. split; [lia|]. split; [intros i Hi; lia | exact Hz].
Qed.

(** X7.  When a transition never returns: [set_sc5xx_cpu_freq] stays in its
    wait, whatever the fuel, exactly when the first read shows the update
    flag and every read after it is zero. *)
Theorem transition_livelock_iff (cfg : config) (new_freq : Z) (e : env) (s : state) :
  (forall fuel, set_sc5xx_cpu_freq fuel cfg new_freq e s = OutOfFuel) <->
  (Z.land (hw_cgu_div e (reads s)) CGU_DIV_UPDT_MASK <> 0 /\
   forall j, hw_cgu_div e (S (reads s) + j)%nat = 0).
Proof.
  split.
  - intros Hspin.
    assert (Hno : forall k, ~ wait_finishes e s k).
    { intros k Hw.
      destruct (set_sc5xx_cpu_freq_returns (S k) cfg new_freq e s k Hw ltac:(lia)) as (s' & R).
      rewrite Hspin in R. discriminate. }
    assert (Hflag : Z.land (hw_cgu_div e (reads s)) CGU_DIV_UPDT_MASK <> 0).
    { intros Hz. apply (Hno 0%nat). unfold wait_finishes.
      apply Z.eqb_eq in Hz. now rewrite Hz. }
    split; [exact Hflag|].
    intros j. destruct (Z.eq_dec (hw_cgu_div e (S (reads s) + j)%nat) 0) as [Hz | Hnz];
      [exact Hz|].
    destruct (first_nonzero_read (hw_cgu_div e) j (S (reads s)) Hnz) as (k & _ & Hp).
    exfalso. apply (Hno k). unfold wait_finishes.
    apply Z.eqb_neq in Hflag. now rewrite Hflag.
  - intros [Hflag Hzero] fuel.
    destruct (set_sc5xx_cpu_freq_cases fuel cfg new_freq e s)
      as [(_ & _ & R) | (s2 & s' & W & _)]; [exact R|].
    apply Z.eqb_neq in Hflag. rewrite Hflag in W.
    rewrite wait_while_zero_spins in W; [discriminate | exact Hzero].
Qed.

(** ** The transition request, continued *)

Lemma appends_table_at (e : env) (Q : event -> bool) (cfg : config) (i : Z) :
  appends e Q (table_at cfg i).
Proof.
  apply appends_silent. intros s a s' H. unfold table_at in H.
  destruct (nth_error (sc5xx_frequency_table cfg) (Z.to_nat i)); [|discriminate].
  now injection H as _ <-.
Qed.

Lemma sc5xx_get_cpu_freq_quiet (e : env) (u : Z) :
  appends e (fun ev => negb (changes_clock ev)) (sc5xx_get_cpu_freq u).
Proof.
  intros s a s' H.
  destruct (sc5xx_get_cpu_freq_trace u e s) as (s1 & evs & R & _ & T & ->).
  rewrite R in H. injection H as _ <-.
  eexists. split; [exact T|]. now destruct (IS_ERR (clk_lookup e CLK)).
Qed.

Lemma set_sc5xx_cpu_freq_quiet (e : env) (fuel : nat) (cfg : config) (new_freq : Z) :
  appends e (fun ev => negb (changes_clock ev)) (set_sc5xx_cpu_freq fuel cfg new_freq).
Proof.
  unfold set_sc5xx_cpu_freq.
  apply appends_bind; [now apply appends_log|]. intros cgu_div _.
  apply appends_bind; [now apply appends_readl|]. intros v _.
  apply appends_bind.
  { destruct (Z.land v CGU_DIV_UPDT_MASK =? 0);
      [apply appends_ret | now apply wait_while_zero_appends]. }
  intros _ _. apply appends_bind; [now apply appends_readl|]. intros v' _.
  apply appends_bind.
  { unfold calc_cclk_freq.
    apply appends_bind; [apply sc5xx_get_cpu_freq_quiet | intros; apply appends_ret]. }
  intros cclk _. destruct (cclk =? new_freq); [apply appends_ret|].
  apply appends_bind.
  { apply appends_silent. intros s a s' H. now injection H as _ <-. }
  intros core_clk _. apply appends_bind; [now apply appends_log|].
  intros _ _. apply appends_ret.
Qed.

(** X8.  A transition request never changes the clock: whatever the index,
    the hardware and the clock lookup, a call of [sc5xx_target_index] that
    returns has neither written to the register nor asked the clock
    framework for a rate; and it does return once the wait is over. *)
Theorem request_never_changes_clock
    (fuel : nat) (cfg : config) (policy : cpufreq_policy) (index : Z) (e : env) (s : state) :
  appends e (fun ev => negb (changes_clock ev)) (sc5xx_target_index fuel cfg policy index) /\
  (forall k, wait_finishes e s k -> (k < fuel)%nat ->
     exists r s' evs,
       sc5xx_target_index fuel cfg policy index e s = Done r s' /\
       trace s' = trace s ++ evs /\ filter changes_clock evs = []).
Proof.
  assert (A : appends e (fun ev => negb (changes_clock ev))
                (sc5xx_target_index fuel cfg policy index)).
  { unfold sc5xx_target_index.
    apply appends_bind; [apply appends_table_at|]. intros head _.
    destruct (to_uint (driver_data head) <? index).
    - apply appends_bind; [now apply appends_log | intros; apply appends_ret].
    - apply appends_bind; [apply appends_table_at|]. intros entry _.
      apply appends_bind; [apply sc5xx_get_cpu_freq_quiet|]. intros curr_freq _.
      destruct ((curr_freq =? 0) && (frequency entry =? 0)); [apply appends_ret|].
      apply appends_bind; [apply set_sc5xx_cpu_freq_quiet|]. intros err _.
      destruct (IS_ERR_VALUE err); apply appends_ret. }
  split; [exact A|].
  intros k Hw Hk.
  assert (exists r s', sc5xx_target_index fuel cfg policy index e s = Done r s') as (r & s' & R).
  { destruct (Z.ltb_spec (max_valid_index cfg) index) as [Hout | Hin].
    - destruct (out_of_range_index_aux fuel cfg policy index e s Hout) as (s' & R).
      now exists 0, s'.
    - destruct (sc5xx_target_index_in_range fuel cfg policy index e s Hin)
        as (entry & v & s1 & _ & _ & Hr & T).
      rewrite T. destruct ((v =? 0) && _); [now eexists _, _|].
      assert (Hw1 : wait_finishes e s1 k) by (unfold wait_finishes in *; now rewrite Hr).
      destruct (set_sc5xx_cpu_freq_returns fuel cfg (frequency entry) e s1 k Hw1 Hk) as (s' & R').
      rewrite R'. now eexists _, _. }
  destruct (A s r s' R) as (evs & T & F).
  exists r, s', evs. split; [exact R|]. split; [exact T|].
  now apply forallb_filter_none.
Qed.

(** X9.  When a request is refused as unsupported: [sc5xx_target_index]
    returns -ENODEV exactly when the index is within the table, the build
    defines no frequencies, and the frequency query comes back with 0. *)
Theorem request_unsupported_iff
    (fuel : nat) (cfg : config) (policy : cpufreq_policy) (index : Z) (e : env) (s : state) :
  (exists s', sc5xx_target_index fuel cfg policy index e s = Done (- ENODEV) s') <->
  (index <= max_valid_index cfg /\ has_freq_defs cfg = false /\ query_value CLK e = 0).
Proof.
  destruct (Z.ltb_spec (max_valid_index cfg) index) as [Hout | Hin].
  - destruct (out_of_range_index_aux fuel cfg policy index e s Hout) as (s' & R).
    split.
    + intros (s'' & R'). rewrite R in R'. discriminate.
    + intros (Hin & _). lia.
  - destruct (sc5xx_target_index_in_range fuel cfg policy index e s Hin)
      as (entry & v & s1 & Hn & Q & _ & T).
    destruct (sc5xx_get_cpu_freq_trace 0 e s) as (s1' & evs & Q' & _).
    rewrite Q in Q'. injection Q' as -> _.
    assert (Hfreq : (frequency entry =? 0) = negb (has_freq_defs cfg)).
    { rewrite max_valid_index_value in Hin.
      assert (Hi : Z.to_nat index = 0%nat \/ Z.to_nat index = 1%nat) by lia.
      destruct Hi as [Hi | Hi]; rewrite Hi in Hn; injection Hn as <-;
        cbn [frequency]; unfold MAX_MHZ, MIN_MHZ; now destruct (has_freq_defs cfg). }
    rewrite T, Hfreq. split.
    + intros (s' & R).
      destruct (query_value CLK e =? 0) eqn:Ev; destruct (has_freq_defs cfg) eqn:Ed;
        cbn [negb andb] in R.
      * pose proof (set_sc5xx_cpu_freq_only_0 fuel cfg (frequency entry) e s1) as H0.
        destruct (set_sc5xx_cpu_freq fuel cfg (frequency entry) e s1); try discriminate.
        simpl in H0. subst. discriminate.
      * apply Z.eqb_eq in Ev. auto.
      * pose proof (set_sc5xx_cpu_freq_only_0 fuel cfg (frequency entry) e s1) as H0.
        destruct (set_sc5xx_cpu_freq fuel cfg (frequency entry) e s1); try discriminate.
        simpl in H0. subst. discriminate.
      * pose proof (set_sc5xx_cpu_freq_only_0 fuel cfg (frequency entry) e s1) as H0.
        destruct (set_sc5xx_cpu_freq fuel cfg (frequency entry) e s1); try discriminate.
        simpl in H0. subst. discriminate.
    + intros (_ & Hd & Hv). rewrite Hd, Hv. now exists s1.
Qed.

(** ** Module load *)

Lemma print_table_from_run (fuel : nat) (cfg : config) (e : env) (s : state) :
  (3 <= fuel)%nat ->
  print_table_from fuel cfg 0 e s = Done tt (emit (debug_line cfg 1) (emit (debug_line cfg 0) s)).
Proof.
  intros Hfuel.
  destruct fuel as [|[|[|fuel]]]; try lia.
  reflexivity.
Qed.

(** X10.  [load_cpufreq] logs the two real entries of the table, head
    first, and not the terminator; then it registers the driver.  When the
    registration answers with an error value, that value is returned and
    nothing more is logged; otherwise the load is announced and 0 returned. *)
Theorem load_cpufreq_result
    (fuel : nat) (cfg : config) (cpufreq_register_driver : M Z)
    (e : env) (s : state) (err : Z) (s2 : state) :
  (3 <= fuel)%nat ->
  cpufreq_register_driver e (emit (debug_line cfg 1) (emit (debug_line cfg 0) s)) = Done err s2 ->
  load_cpufreq fuel cfg cpufreq_register_driver e s =
    Done (if IS_ERR_VALUE err then err else 0)
         (if IS_ERR_VALUE err then s2
          else emit (ev_printk KERN_DEFAULT "Loaded cpufreq driver for sc5xx!\n" []) s2) /\
  table_frequency cfg 0 = MAX_MHZ cfg * 1000 /\
  table_frequency cfg 1 = MIN_MHZ cfg * 1000.
Proof.
  intros Hfuel Hreg. split; [|split; reflexivity].
  unfold load_cpufreq. unfold bind at 1.
  rewrite (print_table_from_run fuel cfg e s Hfuel).
  unfold bind at 1. rewrite Hreg.
  now destruct (IS_ERR_VALUE err).
Qed.

Lemma load_cpufreq_result_witness :
  load_cpufreq 3 sc58x (ret (-16)) (board hw_idle (CLK_HANDLE 1000000)) s0 =
    Done (if IS_ERR_VALUE (-16) then -16 else 0)
         (if IS_ERR_VALUE (-16) then emit (debug_line sc58x 1) (emit (debug_line sc58x 0) s0)
          else emit (ev_printk KERN_DEFAULT "Loaded cpufreq driver for sc5xx!\n" [])
                 (emit (debug_line sc58x 1) (emit (debug_line sc58x 0) s0))) /\
  table_frequency sc58x 0 = MAX_MHZ sc58x * 1000 /\
  table_frequency sc58x 1 = MIN_MHZ sc58x * 1000.
Proof.
  apply (load_cpufreq_result 3 sc58x (ret (-16)) (board hw_idle (CLK_HANDLE 1000000)) s0 (-16)).
  - lia.
  - reflexivity.
Defined.

(** ** The driver on the clock framework *)

Lemma arm_get_cpu_freq_trace (u : Z) (e : env) (s : state) :
  exists s' evs,
    ArmClk.sc5xx_get_cpu_freq u e s = Done (query_value ArmClk.CLK e) s' /\
    reads s' = reads s /\ trace s' = trace s ++ evs /\
    evs = ev_clk_get ArmClk.CLK ::
          (if IS_ERR (clk_lookup e ArmClk.CLK)
           then [ev_printk KERN_INFO "could not get clk:%s\n" [arg_str ArmClk.CLK]]
           else [ev_printk KERN_INFO "Successfully obtained processor clock speed:%u\n"
                   [arg_uint (uninit_uint e)];
                 ev_clk_get_rate]).
Proof.
  unfold ArmClk.sc5xx_get_cpu_freq, query_value, bind, clk_get, printk, log, ret, read_uninit_uint.
  destruct (clk_lookup e ArmClk.CLK) as [errno | | rate]; simpl;
    do 2 eexists; (split; [reflexivity|]); simpl; (split; [reflexivity|]);
    (split; [|reflexivity]); rewrite <- ?app_assoc; reflexivity.
Qed.

Lemma arm_set_cpu_freq_trace (new_freq : Z) (e : env) (s : state) :
  exists s' evs,
    ArmClk.set_sc5xx_cpu_freq new_freq e s =
      Done (if IS_ERR (clk_lookup e ArmClk.CLK) then - ENODEV
            else clk_set_rate_err e new_freq) s' /\
    reads s' = reads s /\ trace s' = trace s ++ evs /\
    evs = ev_clk_get ArmClk.CLK ::
          (if IS_ERR (clk_lookup e ArmClk.CLK) then []
           else [ev_clk_set_rate new_freq; ev_clk_put (clk_lookup e ArmClk.CLK)]).
Proof.
  unfold ArmClk.set_sc5xx_cpu_freq, bind, clk_get, clk_set_rate, clk_put, log, ret.
  destruct (IS_ERR (clk_lookup e ArmClk.CLK)); simpl;
    do 2 eexists; (split; [reflexivity|]); simpl; (split; [reflexivity|]);
    (split; [|reflexivity]); rewrite <- ?app_assoc; reflexivity.
Qed.

(** X11.  On the clock framework, [set_sc5xx_cpu_freq] gives back what it
    takes: when the lookup fails it returns -ENODEV having asked for no rate
    and put nothing; otherwise it asks once for the new frequency, puts the
    very clock it got, and returns the framework's answer. *)
Theorem arm_set_cpu_freq_releases_clock (new_freq : Z) (e : env) (s : state) :
  exists r s' evs,
    ArmClk.set_sc5xx_cpu_freq new_freq e s = Done r s' /\
    reads s' = reads s /\ trace s' = trace s ++ evs /\
    filter is_clk_get evs = [ev_clk_get ArmClk.CLK] /\
    (if IS_ERR (clk_lookup e ArmClk.CLK)
     then r = - ENODEV /\ filter is_clk_set_rate evs = [] /\ filter is_clk_put evs = []
     else r = clk_set_rate_err e new_freq /\
          filter is_clk_set_rate evs = [ev_clk_set_rate new_freq] /\
          filter is_clk_put evs = [ev_clk_put (clk_lookup e ArmClk.CLK)]) /\
    filter is_reg_access evs = [].
Proof.
  destruct (arm_set_cpu_freq_trace new_freq e s) as (s' & evs & R & Hr & T & ->).
  do 3 eexists. split; [exact R|]. split; [exact Hr|]. split; [exact T|].
  destruct (IS_ERR (clk_lookup e ArmClk.CLK)); repeat split.
Qed.

(** The request on the clock framework, case by case. *)
Lemma arm_target_index_run (cfg : config) (policy : cpufreq_policy) (index : Z) (e : env) (s : state) :
  let freq := table_frequency cfg index in
  let refused := (query_value ArmClk.CLK e =? 0) && (freq =? 0) in
  let failed := IS_ERR (clk_lookup e ArmClk.CLK) in
  exists s' evs,
    ArmClk.sc5xx_target_index cfg policy index e s =
      Done (if max_valid_index cfg <? index then 0
            else if refused then - ENODEV
            else if failed then - ENODEV
            else if IS_ERR_VALUE (clk_set_rate_err e freq) then clk_set_rate_err e freq
            else 0) s' /\
    reads s' = reads s /\ trace s' = trace s ++ evs /\
    filter is_clk_set_rate evs =
      (if (index <=? max_valid_index cfg) && negb refused && negb failed
       then [ev_clk_set_rate freq] else []) /\
    filter is_write evs = [].
Proof.
  cbv zeta. rewrite max_valid_index_value.
  unfold ArmClk.sc5xx_target_index.
  unfold bind at 1. unfold table_at at 1. cbn [Z.to_nat nth_error sc5xx_frequency_table].
  unfold ret at 1. cbn [driver_data]. change (to_uint 1) with 1.
  rewrite (Z.leb_antisym 1 index).
  destruct (1 <? index) eqn:Hlt.
  - do 2 eexists. split; [reflexivity|]. repeat split.
  - apply Z.ltb_ge in Hlt. cbn [negb andb].
    assert (Hentry : table_at cfg index e s =
                     Done {| frequency := table_frequency cfg index;
                             driver_data := 1 - Z.of_nat (Z.to_nat index) |} s).
    { assert (Hi : Z.to_nat index = 0%nat \/ Z.to_nat index = 1%nat) by lia.
      unfold table_at, table_frequency.
      destruct Hi as [Hi | Hi]; rewrite Hi; reflexivity. }
    unfold bind at 1. rewrite Hentry. cbn [frequency].
    unfold bind at 1.
    destruct (arm_get_cpu_freq_trace 0 e s) as (s1 & qevs & Q & Hr1 & T1 & Hq).
    rewrite Q.
    destruct ((query_value ArmClk.CLK e =? 0) && (table_frequency cfg index =? 0)).
    + exists s1, qevs. split; [reflexivity|]. split; [exact Hr1|]. split; [exact T1|].
      rewrite Hq. now destruct (IS_ERR (clk_lookup e ArmClk.CLK)).
    + unfold bind at 1.
      destruct (arm_set_cpu_freq_trace (table_frequency cfg index) e s1)
        as (s2 & sevs & R & Hr2 & T2 & Hs).
      rewrite R. cbn [negb andb].
      exists s2, (qevs ++ sevs).
      split.
      { destruct (IS_ERR (clk_lookup e ArmClk.CLK)); [reflexivity|].
        now destruct (IS_ERR_VALUE (clk_set_rate_err e (table_frequency cfg index))). }
      split; [congruence|]. split; [rewrite T2, T1; now rewrite app_assoc|].
      rewrite Hq, Hs. now destruct (IS_ERR (clk_lookup e ArmClk.CLK)).
Qed.

(** X12.  On the clock framework a request always returns, and what it
    returns is settled in this order: 0 for an index past the table;
    -ENODEV when the current and the target frequency are both zero;
    -ENODEV when the clock lookup fails; the answer of [clk_set_rate] for
    the table's frequency at the index when that answer is an error value;
    and 0 for every other answer.  So the result is 0 or an error value. *)
Theorem arm_target_index_codes
    (cfg : config) (policy : cpufreq_policy) (index : Z) (e : env) (s : state) :
  exists r s',
    ArmClk.sc5xx_target_index cfg policy index e s = Done r s' /\
    reads s' = reads s /\
    r = (if max_valid_index cfg <? index then 0
         else if (query_value ArmClk.CLK e =? 0) && (table_frequency cfg index =? 0)
              then - ENODEV
         else if IS_ERR (clk_lookup e ArmClk.CLK) then - ENODEV
         else if IS_ERR_VALUE (clk_set_rate_err e (table_frequency cfg index))
              then clk_set_rate_err e (table_frequency cfg index)
         else 0) /\
    (r = 0 \/ IS_ERR_VALUE r = true) /\
    (r = 0 \/ r = - ENODEV \/ r = clk_set_rate_err e (table_frequency cfg index)).
Proof.
  destruct (arm_target_index_run cfg policy index e s) as (s' & evs & R & Hr & _).
  eexists _, s'. split; [exact R|]. split; [exact Hr|]. split; [reflexivity|].
  destruct (max_valid_index cfg <? index); [auto|].
  destruct ((query_value ArmClk.CLK e =? 0) && _); [auto|].
  destruct (IS_ERR (clk_lookup e ArmClk.CLK)); [auto|].
  destruct (IS_ERR_VALUE (clk_set_rate_err e (table_frequency cfg index))) eqn:E; auto.
Qed.

(** X13.  On the clock framework a request asks for a rate at most once,
    and then for the table's frequency at the index: it does so exactly when
    the index is within the table, the request is not refused as
    unsupported, and the clock lookup does not fail.  It never writes to the
    register. *)
Theorem arm_target_index_rate_request
    (cfg : config) (policy : cpufreq_policy) (index : Z) (e : env) (s : state) :
  exists r s' evs,
    ArmClk.sc5xx_target_index cfg policy index e s = Done r s' /\
    trace s' = trace s ++ evs /\
    filter is_clk_set_rate evs =
      (if (index <=? max_valid_index cfg)
          && negb ((query_value ArmClk.CLK e =? 0) && (table_frequency cfg index =? 0))
          && negb (IS_ERR (clk_lookup e ArmClk.CLK))
       then [ev_clk_set_rate (table_frequency cfg index)] else []) /\
    filter is_write evs = [].
Proof.
  destruct (arm_target_index_run cfg policy index e s) as (s' & evs & R & _ & T & F & W).
  eexists _, s', evs. split; [exact R|]. split; [exact T|]. split; [exact F | exact W].
Qed.

(** X14.  On the clock framework too, the frequency query returns 0 when
    the lookup of the clock ["arm"] fails and the clock's rate, converted to
    [unsigned int], when it does not; it takes one reference on the clock and
    gives none back. *)
Theorem arm_get_cpu_freq_result (u : Z) (e : env) (s : state) :
  exists v s' evs,
    ArmClk.sc5xx_get_cpu_freq u e s = Done v s' /\
    reads s' = reads s /\ trace s' = trace s ++ evs /\
    match clk_lookup e ArmClk.CLK with
    | ERR_PTR _ => v = 0
    | NULL => v = 0
    | CLK_HANDLE rate => v = to_uint rate
    end /\
    filter is_clk_get evs = [ev_clk_get ArmClk.CLK] /\
    filter is_clk_put evs = [] /\
    filter is_reg_access evs = [].
Proof.
  destruct (arm_get_cpu_freq_trace u e s) as (s' & evs & R & Hr & T & ->).
  do 3 eexists. split; [exact R|]. split; [exact Hr|]. split; [exact T|].
  unfold query_value.
  destruct (clk_lookup e ArmClk.CLK); repeat split.
Qed.
